(** * Autofiller TypeScript SDK: the extraction client lifecycle

    A shallow embedding of [sdks/typescript/src/errors.ts] and of the
    [AutofillerClient] class of [sdks/typescript/src/client.ts]: the error
    classes, the transport ([request], [handleErrorResponse]), the request
    builder ([buildFormData]), the job poller ([waitForJob]) and the result
    normalizer ([transformExtractionResult], [transformJobStatus]).

    Conventions.
    - A TypeScript interface is a record; an optional member [x?: t] is a
      field of type [option t] ([None] is [undefined]).
    - Asynchronous methods run one after the other in a state-and-exception
      monad [M] over a [World]: the JavaScript heap, the clock read by
      [Date.now()], the requests issued so far and the answers the network
      will give.
    - Platform functions the client calls but does not define
      ([Date.parse], [path.resolve], [path.basename], the multipart
      boundary) are the members of the class [Platform]. *)

From Stdlib Require Import ZArith QArith Ascii String List DecimalString.
From stdpp Require Import gmap strings list fin_maps.
Close Scope Q_scope.
Open Scope Z_scope.
Set Warnings "-register-all".

(** ** JavaScript values used by the client *)

(** A JavaScript [number] in a wire payload. *)
Definition number : Type := Q.

(** [`${n}`] for a non-negative integer. *)
Definition decimal (n : N) : string := NilZero.string_of_uint (N.to_uint n).

(** An arbitrary JSON value ([unknown] in the TypeScript types). *)
Inductive Json : Type :=
| JNull
| JBool (b : bool)
| JNumber (q : number)
| JString (s : string)
| JArray (items : list Json)
| JObject (members : list (string * Json)).

(** A [Date] object: a time value in milliseconds, or Invalid Date. *)
Inductive JsDate : Type :=
| ValidDate (ms : Z)
| InvalidDate.

(** What platform code gives the client. *)
Class Platform : Type := {
  Date_parse : string -> option Z;
  path_resolve : string -> string;
  path_basename : string -> string;
  multipart_boundary : string
}.

(** [new Date(s)] for a string [s]. *)
Definition new_Date_string {platform : Platform} (s : string) : JsDate :=
  match Date_parse s with
  | Some ms => ValidDate ms
  | None => InvalidDate
  end.

(** [new Date(n)] for an integral time value such as [Date.now()]. *)
Definition new_Date_number (n : Z) : JsDate := ValidDate n.

(** Truthiness of an optional string: [undefined] and the empty string are
    falsy. *)
Definition truthy (s : option string) : bool :=
  match s with
  | Some (String _ _) => true
  | Some EmptyString => false
  | None => false
  end.

(** ** errors.ts *)

Inductive ErrorClass : Type :=
| AutofillerError
| ValidationError
| AuthenticationError
| RateLimitError
| ExtractionError.

#[global] Instance ErrorClass_eq_dec : EqDecision ErrorClass.
Proof. solve_decision. Defined.

(** An instance of [AutofillerError] or of one of its subclasses: the
    class it was constructed with, and its own properties. *)
Record SdkError : Type := mkSdkError {
  err_class : ErrorClass;
  err_name : string;
  err_message : string;
  err_code : string
}.

(** The body of the base constructor, run for an object of class
    [target] ([super(message, code)] in the subclasses). *)
Definition AutofillerError_constructor (target : ErrorClass) (message code : string) : SdkError :=
  {| err_class := target; err_name := "AutofillerError";
     err_message := message; err_code := code |}.

Definition set_name (n : string) (e : SdkError) : SdkError :=
  {| err_class := err_class e; err_name := n;
     err_message := err_message e; err_code := err_code e |}.

Definition new_AutofillerError (message code : string) : SdkError :=
  AutofillerError_constructor AutofillerError message code.

Definition new_ValidationError (message : string) : SdkError :=
  set_name "ValidationError"
    (AutofillerError_constructor ValidationError message "validation_error").

Definition new_AuthenticationError (message : option string) : SdkError :=
  set_name "AuthenticationError"
    (AutofillerError_constructor AuthenticationError
       (default "Invalid or missing API key" message) "authentication_error").

Definition new_RateLimitError (message : option string) : SdkError :=
  set_name "RateLimitError"
    (AutofillerError_constructor RateLimitError
       (default "Rate limit exceeded" message) "rate_limit_exceeded").

Definition new_ExtractionError (message : string) (code : option string) : SdkError :=
  set_name "ExtractionError"
    (AutofillerError_constructor ExtractionError message
       (default "extraction_failed" code)).

(** [e instanceof C]: every class extends [AutofillerError] directly. *)
Definition instanceof (e : SdkError) (C : ErrorClass) : bool :=
  bool_decide (err_class e = C) || bool_decide (C = AutofillerError).

(** What [instanceof] and [name] can tell apart: two errors of the same
    kind differ at most in message and code. *)
Definition same_kind (e1 e2 : SdkError) : Prop :=
  err_class e1 = err_class e2 /\ err_name e1 = err_name e2.

(** Anything a JavaScript [throw] or a rejected promise can carry. *)
Inductive Thrown : Type :=
| ThrowSdk (e : SdkError)
| ThrowError (name message : string)
| ThrowOther.

(** ** Wire types (the [Api...] interfaces of client.ts) *)

Record BoundingBox : Type := mkBoundingBox {
  bb_page : number; bb_x : number; bb_y : number;
  bb_width : number; bb_height : number
}.

Record ApiMetadata : Type := mkApiMetadata {
  md_pages : option number;
  md_processing_time_ms : option number;
  md_model_version : option string;
  md_created_at : option string
}.

Record ApiExtractionResult : Type := mkApiExtractionResult {
  er_id : string;
  er_status : string;
  er_domain_pack : string;
  er_data : list (string * Json);
  er_confidence : option (list (string * number));
  er_bounding_boxes : option (list (string * BoundingBox));
  er_metadata : option ApiMetadata;
  er_warnings : option (list string)
}.

(** The [error] member of a job status. Its parts are read with [??]
    defaults by [waitForJob], so they are optional here. *)
Record ApiJobError : Type := mkApiJobError {
  je_code : option string;
  je_message : option string
}.

Record ApiJobStatus : Type := mkApiJobStatus {
  js_job_id : string;
  js_status : string;
  js_progress : option number;
  js_result : option ApiExtractionResult;
  js_error : option ApiJobError;
  js_created_at : string;
  js_completed_at : option string
}.

(** The answer to [POST /extract/async]. *)
Record ApiAsyncJob : Type := mkApiAsyncJob {
  aj_job_id : string;
  aj_status : string;
  aj_estimated_time_seconds : option number
}.

(** [errorData] in [handleErrorResponse]. *)
Record ErrorData : Type := mkErrorData {
  ed_code : option string;
  ed_message : option string
}.

(** ** Client model (types.ts) *)

Record AutofillerConfig : Type := mkAutofillerConfig {
  cfg_apiKey : option string;
  cfg_baseUrl : option string;
  cfg_timeout : option Z;
  cfg_maxRetries : option Z
}.

(** [Required<AutofillerConfig>], the private [config] of a client. *)
Record Config : Type := mkConfig {
  apiKey : string;
  baseUrl : string;
  timeout : Z;
  maxRetries : Z
}.

Record ExtractionMetadata : Type := mkExtractionMetadata {
  pages : number;
  processingTimeMs : number;
  modelVersion : string;
  createdAt : JsDate
}.

Record ExtractResult : Type := mkExtractResult {
  res_id : string;
  res_status : string;
  res_domainPack : string;
  res_data : list (string * Json);
  res_confidence : option (list (string * number));
  res_boundingBoxes : option (list (string * BoundingBox));
  res_metadata : ExtractionMetadata;
  res_warnings : option (list string)
}.

Record JobStatus : Type := mkJobStatus {
  job_jobId : string;
  job_status : string;
  job_progress : option number;
  job_result : option ExtractResult;
  job_error : option ApiJobError;
  job_createdAt : JsDate;
  job_completedAt : option JsDate
}.

(** What [extractAsync] returns; its status is the literal ['pending']. *)
Record JobHandle : Type := mkJobHandle {
  jobId : string;
  handle_status : string;
  estimatedTimeSeconds : option number
}.

(** The file member of [ExtractOptions]: [string | Buffer | Blob]. A
    buffer or blob is held by its bytes: what a callee might write to the
    caller's buffer or blob object is not part of the model. *)
Inductive FileInput : Type :=
| FilePath (p : string)
| FileBuffer (bytes : list Byte.byte)
| FileBlob (bytes : list Byte.byte).

(** [ExtractAsyncOptions]; [ExtractOptions] is the same object without
    [webhookUrl]. *)
Record ExtractOptions : Type := mkExtractOptions {
  file : FileInput;
  filename : option string;
  domainPack : option string;
  includeConfidence : option bool;
  includeBoundingBoxes : option bool;
  language : option string;
  webhookUrl : option string
}.

(** ** Result normalizer *)

Definition DEFAULT_BASE_URL : string := "https://api.autofiller.dev/v1".
Definition DEFAULT_TIMEOUT : Z := 30000.
Definition DEFAULT_MAX_RETRIES : Z := 3.

(** [response.metadata?.f]. *)
Definition metadata_member {A} (f : ApiMetadata -> option A)
    (response : ApiExtractionResult) : option A :=
  match er_metadata response with
  | Some m => f m
  | None => None
  end.

(** [transformExtractionResult]; [now] is the value of [Date.now()] at the
    call. *)
Definition transformExtractionResult {platform : Platform} (now : Z)
    (response : ApiExtractionResult) : ExtractResult :=
  {| res_id := er_id response;
     res_status := er_status response;
     res_domainPack := er_domain_pack response;
     res_data := er_data response;
     res_confidence := er_confidence response;
     res_boundingBoxes := er_bounding_boxes response;
     res_metadata :=
       {| pages := default (0 : Q) (metadata_member md_pages response);
          processingTimeMs :=
            default (0 : Q) (metadata_member md_processing_time_ms response);
          modelVersion :=
            default "unknown" (metadata_member md_model_version response);
          createdAt :=
            match metadata_member md_created_at response with
            | Some s => new_Date_string s
            | None => new_Date_number now
            end |};
     res_warnings := er_warnings response |}.

(** [transformJobStatus]. *)
Definition transformJobStatus {platform : Platform} (now : Z)
    (response : ApiJobStatus) : JobStatus :=
  {| job_jobId := js_job_id response;
     job_status := js_status response;
     job_progress := js_progress response;
     job_result :=
       match js_result response with
       | Some r => Some (transformExtractionResult now r)
       | None => None
       end;
     job_error := js_error response;
     job_createdAt := new_Date_string (js_created_at response);
     job_completedAt :=
       if truthy (js_completed_at response)
       then match js_completed_at response with
            | Some s => Some (new_Date_string s)
            | None => None
            end
       else None |}.

(** ** The world a client call runs in *)

Inductive Method : Type := GET | POST | PUT | DELETE.

(** One entry of a [FormData]: field name, value and optional filename. *)
Inductive FormValue : Type :=
| ReadStream (path : string)
| BufferValue (bytes : list Byte.byte)
| BlobValue (bytes : list Byte.byte)
| TextValue (s : string)
| JsonText (members : list (string * Json)).

Record FormEntry : Type := mkFormEntry {
  fe_field : string;
  fe_value : FormValue;
  fe_filename : option string
}.

(** Objects on the JavaScript heap. [RecordObj] is a plain object with
    its properties in insertion order; [JsonText o] above stands for the
    text [JSON.stringify(o)]. *)
Inductive Obj : Type :=
| OptionsObj (o : ExtractOptions)
| FormDataObj (entries : list FormEntry)
| RecordObj (members : list (string * Json)).

Definition loc : Type := nat.

(** What [fetch] is called with. *)
Inductive RequestBody : Type :=
| FormBody (entries : list FormEntry)
| JsonBody (members : list (string * Json)).

Record Request : Type := mkRequest {
  req_url : string;
  req_method : Method;
  req_headers : list (string * string);
  req_body : option RequestBody
}.

(** The outcome of [response.json()]: a syntax error, the value [null],
    or a document. [response.json()] is typed [any]; the client reads the
    document at two types only, [errorData] on a non-2xx response and [T]
    on a 2xx response, so a document is given by what it is at these two
    types. [null] is apart: it is the one JSON value on which a property
    read throws. *)
Record Document (T : Type) : Type := mkDocument {
  asErrorData : ErrorData;
  asPayload : T
}.
Arguments mkDocument {T} _ _.
Arguments asErrorData {T} _.
Arguments asPayload {T} _.

Inductive Parsed (A : Type) : Type :=
| NotJson (why : string)
| IsNull
| IsJson (doc : A).
Arguments NotJson {A} _.
Arguments IsNull {A}.
Arguments IsJson {A} _.

Record Response (T : Type) : Type := mkResponse {
  status : N;
  statusText : string;
  json : Parsed (Document T)
}.
Arguments mkResponse {T} _ _ _.
Arguments status {T} _.
Arguments statusText {T} _.
Arguments json {T} _.

(** [response.ok]. *)
Definition ok {T} (response : Response T) : bool :=
  (200 <=? status response)%N && (status response <=? 299)%N.

(** How the network answers one [fetch]: after [latency] milliseconds the
    promise resolves with a response or rejects. *)
Inductive Reply (T : Type) : Type :=
| Resolves (response : Response T)
| Rejects (reason : Thrown).
Arguments Resolves {T} _.
Arguments Rejects {T} _.

Record Exchange (T : Type) : Type := mkExchange {
  latency : Z;
  reply : Reply T
}.
Arguments mkExchange {T} _ _.
Arguments latency {T} _.
Arguments reply {T} _.

(** [server n] answers the request issued when [n] requests were issued
    before it; [overrun n] is how late a timer set at that point fires. *)
Record World (T : Type) : Type := mkWorld {
  heap : gmap loc Obj;
  clock : Z;
  sent : list Request;
  server : nat -> Exchange T;
  overrun : nat -> Z
}.
Arguments mkWorld {T} _ _ _ _ _.
Arguments heap {T} _.
Arguments clock {T} _.
Arguments sent {T} _.
Arguments server {T} _.
Arguments overrun {T} _.

(** ** The monad of client calls *)

Inductive Outcome (A : Type) : Type :=
| Returned (a : A)
| Raised (t : Thrown)
| Unfinished.
Arguments Returned {A} _.
Arguments Raised {A} _.
Arguments Unfinished {A}.

Definition M (T A : Type) : Type := World T -> Outcome A * World T.

Definition ret {T A} (a : A) : M T A := fun w => (Returned a, w).

Definition raise {T A} (t : Thrown) : M T A := fun w => (Raised t, w).

Definition bind {T A B} (m : M T A) (k : A -> M T B) : M T B :=
  fun w =>
    match m w with
    | (Returned a, w') => k a w'
    | (Raised t, w') => (Raised t, w')
    | (Unfinished, w') => (Unfinished, w')
    end.

(** [try { m } catch (error) { handler error }]. *)
Definition try_catch {T A} (m : M T A) (handler : Thrown -> M T A) : M T A :=
  fun w =>
    match m w with
    | (Raised t, w') => handler t w'
    | r => r
    end.

Declare Scope client_scope.
Delimit Scope client_scope with client.
Notation "x <- m ;; k" := (bind m (fun x => k))
  (at level 100, m at next level, right associativity) : client_scope.
Notation "m ;;; k" := (bind m (fun _ => k))
  (at level 100, right associativity) : client_scope.
Open Scope client_scope.

(** [Date.now()]. *)
Definition Date_now {T} : M T Z := fun w => (Returned (clock w), w).

Definition advance {T} (ms : Z) (w : World T) : World T :=
  mkWorld (heap w) (clock w + ms) (sent w) (server w) (overrun w).

Definition record_request {T} (req : Request) (w : World T) : World T :=
  mkWorld (heap w) (clock w) (sent w ++ [req]) (server w) (overrun w).

Definition set_heap {T} (h : gmap loc Obj) (w : World T) : World T :=
  mkWorld h (clock w) (sent w) (server w) (overrun w).

(** [sleep(ms)]: a timer of [ms] milliseconds, which may fire late. The
    timer is the one of the delays [setTimeout] takes as given, whole
    milliseconds from 1 to 2147483647; Node replaces any other delay by
    1 ms, which is not modelled. *)
Definition sleep {T} (ms : Z) : M T unit :=
  fun w => (Returned tt, advance (ms + overrun w (length (sent w))) w).

(** [fetch(url, {..., signal})] under [setTimeout(() => controller.abort(),
    timeout)]: the request goes out; if no answer has come when the timer
    fires, the call rejects with an [AbortError]. The timer is the one of
    [sleep]: a delay outside 1 .. 2147483647, which Node replaces by 1 ms,
    is not modelled. *)
Definition fetch {T} (timeout_ms : Z) (req : Request) : M T (Response T) :=
  fun w =>
    let x := server w (length (sent w)) in
    let w1 := record_request req w in
    if timeout_ms <? latency x
    then (Raised (ThrowError "AbortError" "This operation was aborted"),
          advance timeout_ms w1)
    else match reply x with
         | Resolves response => (Returned response, advance (latency x) w1)
         | Rejects reason => (Raised reason, advance (latency x) w1)
         end.

(** [await response.json()] read at the error type and at [T]; [None] is
    the value [null]. *)
Definition response_json {T} (response : Response T) : M T (option (Document T)) :=
  match json response with
  | NotJson why => raise (ThrowError "SyntaxError" why)
  | IsNull => ret None
  | IsJson doc => ret (Some doc)
  end.

(** The error of reading [property] on [null]. *)
Definition null_read (property : string) : Thrown :=
  ThrowError "TypeError"
    ("Cannot read properties of null (reading '" +:+ property +:+ "')").

(** The first property read on a parsed value: it throws on [null]. *)
Definition read_object {T A} (property : string) (value : option A) : M T A :=
  match value with
  | Some object => ret object
  | None => raise (null_read property)
  end.

(** Heap primitives. *)
Definition alloc {T} (o : Obj) : M T loc :=
  fun w =>
    let l := fresh (dom (heap w)) in
    (Returned l, set_heap (<[l := o]> (heap w)) w).

Definition load {T} (l : loc) : M T (option Obj) :=
  fun w => (Returned (heap w !! l), w).

Definition store {T} (l : loc) (o : Obj) : M T unit :=
  fun w => (Returned tt, set_heap (<[l := o]> (heap w)) w).

(** [o[k] = v] on a plain object: an existing property keeps its place. *)
Fixpoint set_member {V} (k : string) (v : V) (o : list (string * V)) : list (string * V) :=
  match o with
  | [] => [(k, v)]
  | (k', v') :: rest =>
      if bool_decide (k' = k) then (k, v) :: rest
      else (k', v') :: set_member k v rest
  end.

(** ** client.ts: the [AutofillerClient] class *)

Section Client.
Context {platform : Platform}.

(** [constructor(config)]. *)
Definition AutofillerClient_constructor {T} (config : AutofillerConfig) : M T Config :=
  if negb (truthy (cfg_apiKey config))
  then raise (ThrowSdk (new_ValidationError "API key is required"))
  else ret {| apiKey := default EmptyString (cfg_apiKey config);
              baseUrl := default DEFAULT_BASE_URL (cfg_baseUrl config);
              timeout := default DEFAULT_TIMEOUT (cfg_timeout config);
              maxRetries := default DEFAULT_MAX_RETRIES (cfg_maxRetries config) |}.

(** *** Request builder *)

Definition not_an_object {T A} : M T A :=
  raise (ThrowError "TypeError" "Cannot read properties of undefined").

(** [options.f]: a property read on the caller's options object. *)
Definition get_option {T A} (f : ExtractOptions -> A) (options : loc) : M T A :=
  o <- load options;;
  match o with
  | Some (OptionsObj x) => ret (f x)
  | _ => not_an_object
  end.

(** A path holds a NUL character. *)
Fixpoint has_nul (p : string) : bool :=
  match p with
  | EmptyString => false
  | String c rest => Ascii.eqb c Ascii.zero || has_nul rest
  end.

(** [fs.createReadStream(filePath)]: the file is opened when the stream
    is read, so a missing file does not show here; a path with a NUL
    character is refused at once. *)
Definition fs_createReadStream {T} (filePath : string) : M T FormValue :=
  if has_nul filePath
  then raise (ThrowError "TypeError"
                "The argument 'path' must be a string, Uint8Array, or URL without null bytes.")
  else ret (ReadStream filePath).

(** [formData.append(field, value, filename)] of the form-data package on
    Node: a value that is neither a string nor a buffer is taken for a
    stream and its [on] is called, which a Blob does not have. The form
    that throws is a local of [buildFormData] and is lost with it; what
    the library has written to the blob by then is not modelled. *)
Definition FormData_append {T} (formData : loc) (field : string)
    (value : FormValue) (fname : option string) : M T unit :=
  o <- load formData;;
  match o with
  | Some (FormDataObj entries) =>
      match value with
      | BlobValue _ => raise (ThrowError "TypeError" "source.on is not a function")
      | _ => store formData (FormDataObj (entries ++ [mkFormEntry field value fname]))
      end
  | _ => not_an_object
  end.

(** [formData.getHeaders()]. *)
Definition FormData_getHeaders {T} (formData : loc) : M T (list (string * string)) :=
  o <- load formData;;
  match o with
  | Some (FormDataObj _) =>
      ret [("content-type",
            "multipart/form-data; boundary=" +:+ multipart_boundary)]
  | _ => not_an_object
  end.

(** [record[k] = v] on a plain object. *)
Definition set_property {T} (record : loc) (k : string) (v : Json) : M T unit :=
  o <- load record;;
  match o with
  | Some (RecordObj members) => store record (RecordObj (set_member k v members))
  | _ => not_an_object
  end.

(** The members of a plain object, for [Object.keys] and
    [JSON.stringify]. *)
Definition get_members {T} (record : loc) : M T (list (string * Json)) :=
  o <- load record;;
  match o with
  | Some (RecordObj members) => ret members
  | _ => not_an_object
  end.

Definition when {T} (b : bool) (m : M T unit) : M T unit :=
  if b then m else ret tt.

(** [buildFormData(options)]; [options] is the reference the caller
    passed. *)
Definition buildFormData {T} (options : loc) : M T loc :=
  formData <- alloc (FormDataObj []);;
  f <- get_option file options;;
  match f with
  | FilePath p =>
      let filePath := path_resolve p in
      fname <- get_option filename options;;
      stream <- fs_createReadStream filePath;;
      FormData_append formData "file" stream
        (Some (default (path_basename filePath) fname))
  | FileBuffer bytes =>
      fname <- get_option filename options;;
      if negb (truthy fname)
      then raise (ThrowSdk
                    (new_ValidationError "filename is required when file is a Buffer"))
      else FormData_append formData "file" (BufferValue bytes) fname
  | FileBlob bytes =>
      fname <- get_option filename options;;
      FormData_append formData "file" (BlobValue bytes)
        (Some (default "document" fname))
  end;;;
  pack <- get_option domainPack options;;
  when (truthy pack)
    (FormData_append formData "domain_pack"
       (TextValue (default EmptyString pack)) None);;;
  extractOptions <- alloc (RecordObj []);;
  conf <- get_option includeConfidence options;;
  match conf with
  | Some b => set_property extractOptions "include_confidence" (JBool b)
  | None => ret tt
  end;;;
  boxes <- get_option includeBoundingBoxes options;;
  match boxes with
  | Some b => set_property extractOptions "include_bounding_boxes" (JBool b)
  | None => ret tt
  end;;;
  lang <- get_option language options;;
  when (truthy lang)
    (set_property extractOptions "language"
       (JString (default EmptyString lang)));;;
  members <- get_members extractOptions;;
  when (0 <? Z.of_nat (length members))
    (FormData_append formData "options" (JsonText members) None);;;
  ret formData.

(** *** Transport *)

Record RequestOptions : Type := mkRequestOptions {
  ro_method : Method;
  ro_body : option loc;
  ro_headers : option (list (string * string));
  ro_auth : option bool
}.

(** [handleErrorResponse(response)]: never returns. [errorData] is the
    empty object, or what [response.json()] gave: [null] for a body
    [null], on which reading [message] throws. *)
Definition handleErrorResponse {T A} (response : Response T) : M T A :=
  parsed <- try_catch
              (doc <- response_json response;; ret (option_map asErrorData doc))
              (fun _ => ret (Some (mkErrorData None None)));;
  errorData <- read_object "message" parsed;;
  let message := default (statusText response) (ed_message errorData) in
  let code := default ("http_" +:+ decimal (status response)) (ed_code errorData) in
  match status response with
  | 401%N => raise (ThrowSdk (new_AuthenticationError (Some message)))
  | 429%N => raise (ThrowSdk (new_RateLimitError (Some message)))
  | 400%N | 422%N => raise (ThrowSdk (new_ValidationError message))
  | _ => raise (ThrowSdk (new_AutofillerError message code))
  end.

(** The [catch] block of [request]. *)
Definition request_catch {T A} (error : Thrown) : M T A :=
  match error with
  | ThrowSdk e =>
      (* every SDK error is an instance of AutofillerError *)
      if instanceof e AutofillerError then raise error
      else raise (ThrowSdk (new_AutofillerError
                              ("Request failed: " +:+ err_message e) "request_failed"))
  | ThrowError name message =>
      if bool_decide (name = "AbortError")
      then raise (ThrowSdk (new_AutofillerError "Request timed out" "timeout"))
      else raise (ThrowSdk (new_AutofillerError
                              ("Request failed: " +:+ message) "request_failed"))
  | ThrowOther =>
      raise (ThrowSdk (new_AutofillerError
                         ("Request failed: " +:+ "Unknown error") "request_failed"))
  end.

(** What [requestBody] becomes for the [body] option, and whether the
    JSON content type is set: a [FormData] goes out as it is, any other
    object as JSON text (the client only ever passes a [FormData]). *)
Definition request_body {T} (body : option loc) : M T (option RequestBody * bool) :=
  match body with
  | None => ret (None, false)
  | Some l =>
      o <- load l;;
      match o with
      | Some (FormDataObj entries) => ret (Some (FormBody entries), false)
      | Some (RecordObj members) => ret (Some (JsonBody members), true)
      | Some (OptionsObj _) => ret (Some (JsonBody []), true)
      | None => ret (None, false)
      end
  end.

(** [request<T>(endpoint, options)]; what it returns is a [T] or, for a
    2xx body [null], the value [null] ([None]). *)
Definition request {T} (config : Config) (endpoint : string)
    (options : RequestOptions) : M T (option T) :=
  let headers := default [] (ro_headers options) in
  let auth := default true (ro_auth options) in
  let url := baseUrl config +:+ endpoint in
  let requestHeaders :=
    if auth
    then set_member "Authorization" ("Bearer " +:+ apiKey config) headers
    else headers in
  b <- request_body (ro_body options);;
  let requestHeaders :=
    if snd b
    then set_member "Content-Type" "application/json" requestHeaders
    else requestHeaders in
  try_catch
    (response <- fetch (timeout config)
                   (mkRequest url (ro_method options) requestHeaders (fst b));;
     when (negb (ok response)) (handleErrorResponse response);;;
     doc <- response_json response;;
     ret (option_map asPayload doc))
    request_catch.

(** *** Public methods *)

(** [extract(options)]. *)
Definition extract (config : Config) (options : loc)
    : M ApiExtractionResult ExtractResult :=
  formData <- buildFormData options;;
  headers <- FormData_getHeaders formData;;
  response <- request config "/extract"
                (mkRequestOptions POST (Some formData) (Some headers) None);;
  response <- read_object "id" response;;
  now <- Date_now;;
  ret (transformExtractionResult now response).

(** [extractAsync(options)]. *)
Definition extractAsync (config : Config) (options : loc)
    : M ApiAsyncJob JobHandle :=
  formData <- buildFormData options;;
  hook <- get_option webhookUrl options;;
  when (truthy hook)
    (FormData_append formData "webhook_url"
       (TextValue (default EmptyString hook)) None);;;
  headers <- FormData_getHeaders formData;;
  response <- request config "/extract/async"
                (mkRequestOptions POST (Some formData) (Some headers) None);;
  response <- read_object "job_id" response;;
  ret {| jobId := aj_job_id response;
         handle_status := "pending";
         estimatedTimeSeconds := aj_estimated_time_seconds response |}.

(** [getJob(jobId)]. *)
Definition getJob (config : Config) (jobId : string) : M ApiJobStatus JobStatus :=
  response <- request config ("/jobs/" +:+ jobId)
                (mkRequestOptions GET None None None);;
  response <- read_object "job_id" response;;
  now <- Date_now;;
  ret (transformJobStatus now response).

(** The body of the [while] loop of [waitForJob], with its condition;
    [fuel] bounds the number of iterations. *)
Fixpoint waitForJob_loop (fuel : nat) (config : Config) (jobId : string)
    (pollInterval maxWait startTime : Z) : M ApiJobStatus ExtractResult :=
  match fuel with
  | O => fun w => (Unfinished, w)
  | S fuel' =>
      now <- Date_now;;
      if now - startTime <? maxWait
      then
        job <- getJob config jobId;;
        match bool_decide (job_status job = "completed"), job_result job with
        | true, Some result => ret result
        | _, _ =>
            if bool_decide (job_status job = "failed")
            then raise (ThrowSdk
                          (new_AutofillerError
                             (default "Job failed"
                                (match job_error job with
                                 | Some e => je_message e
                                 | None => None
                                 end))
                             (default "job_failed"
                                (match job_error job with
                                 | Some e => je_code e
                                 | None => None
                                 end))))
            else
              sleep pollInterval;;;
              waitForJob_loop fuel' config jobId pollInterval maxWait startTime
        end
      else raise (ThrowSdk
                    (new_AutofillerError "Job timed out waiting for completion"
                       "job_timeout"))
  end.

(** [waitForJob(jobId, pollInterval = 2000, maxWait = 300000)]. *)
Definition waitForJob (fuel : nat) (config : Config) (jobId : string)
    (pollInterval maxWait : option Z) : M ApiJobStatus ExtractResult :=
  let pollInterval := default 2000 pollInterval in
  let maxWait := default 300000 maxWait in
  startTime <- Date_now;;
  waitForJob_loop fuel config jobId pollInterval maxWait startTime.

End Client.

(** ** Notions used in the statements *)

(** The error data [handleErrorResponse] works with: the parsed body, or
    the empty object when the body is not JSON. A body [null] has no
    members to read; [handleErrorResponse] throws before it uses any. *)
Definition bestEffort {T} (response : Response T) : ErrorData :=
  match json response with
  | IsJson doc => asErrorData doc
  | NotJson _ => mkErrorData None None
  | IsNull => mkErrorData None None
  end.

(** The message and the code computed at the top of
    [handleErrorResponse]. *)
Definition error_message {T} (response : Response T) : string :=
  default (statusText response) (ed_message (bestEffort response)).

Definition error_code {T} (response : Response T) : string :=
  default ("http_" +:+ decimal (status response)) (ed_code (bestEffort response)).

(** The statuses with an error class of their own. *)
Definition dedicated (s : N) : bool :=
  (s =? 401)%N || (s =? 429)%N || (s =? 400)%N || (s =? 422)%N.

(** The error [handleErrorResponse] throws for a response. *)
Definition classified {T} (response : Response T) : SdkError :=
  match status response with
  | 401%N => new_AuthenticationError (Some (error_message response))
  | 429%N => new_RateLimitError (Some (error_message response))
  | 400%N | 422%N => new_ValidationError (error_message response)
  | _ => new_AutofillerError (error_message response) (error_code response)
  end.

(** The request [request] hands to [fetch]. *)
Definition resolve_body (h : gmap loc Obj) (body : option loc) : option RequestBody * bool :=
  match body with
  | None => (None, false)
  | Some l =>
      match h !! l with
      | Some (FormDataObj entries) => (Some (FormBody entries), false)
      | Some (RecordObj members) => (Some (JsonBody members), true)
      | Some (OptionsObj _) => (Some (JsonBody []), true)
      | None => (None, false)
      end
  end.

Definition outgoing {T} (config : Config) (endpoint : string)
    (options : RequestOptions) (w : World T) : Request :=
  let b := resolve_body (heap w) (ro_body options) in
  let headers :=
    if default true (ro_auth options)
    then set_member "Authorization" ("Bearer " +:+ apiKey config)
           (default [] (ro_headers options))
    else default [] (ro_headers options) in
  mkRequest (baseUrl config +:+ endpoint) (ro_method options)
    (if snd b then set_member "Content-Type" "application/json" headers else headers)
    (fst b).

(** The answer to the next request issued in [w]. *)
Definition next_exchange {T} (w : World T) : Exchange T :=
  server w (length (sent w)).

(** The next request is answered in time by [response]. *)
Definition answered {T} (config : Config) (w : World T) (response : Response T) : Prop :=
  latency (next_exchange w) <= timeout config /\
  reply (next_exchange w) = Resolves response.

(** The request [getJob] issues. *)
Definition poll_request (config : Config) (jobId : string) : Request :=
  mkRequest (baseUrl config +:+ "/jobs/" +:+ jobId) GET
    [("Authorization", "Bearer " +:+ apiKey config)] None.

(** The wire snapshot the next status request brings back, when it brings
    one: an answer in time, with a 2xx status and a JSON body. *)
Definition next_snapshot (config : Config) (w : World ApiJobStatus) : option ApiJobStatus :=
  let x := next_exchange w in
  if timeout config <? latency x then None
  else match reply x with
       | Resolves response =>
           if ok response
           then match json response with
                | IsJson doc => Some (asPayload doc)
                | NotJson _ => None
                | IsNull => None
                end
           else None
       | Rejects _ => None
       end.

(** The world when the next status request has been answered. *)
Definition polled (config : Config) (jobId : string) (w : World ApiJobStatus) : World ApiJobStatus :=
  advance (latency (next_exchange w)) (record_request (poll_request config jobId) w).

(** The world at the next test of the loop condition: after the status
    request and the sleep. *)
Definition after_poll (config : Config) (jobId : string) (pollInterval : Z)
    (w : World ApiJobStatus) : World ApiJobStatus :=
  let w1 := polled config jobId w in
  advance (pollInterval + overrun w1 (length (sent w1))) w1.

(** The world at the [i]-th test of the loop condition (from 0), as long
    as the loop keeps polling. *)
Definition at_test (config : Config) (jobId : string) (pollInterval : Z)
    (i : nat) (w : World ApiJobStatus) : World ApiJobStatus :=
  Nat.iter i (after_poll config jobId pollInterval) w.

(** [m] leaves every object at a location of [D] as it is, issues no
    request and lets no time pass; what it returns satisfies [Q]. *)
Definition preserves {T A} (D : gset loc) (m : M T A) (Q : A -> Prop) : Prop :=
  forall w : World T, D ⊆ dom (heap w) ->
    (forall l, l ∈ D -> heap (snd (m w)) !! l = heap w !! l) /\
    sent (snd (m w)) = sent w /\ clock (snd (m w)) = clock w /\
    (forall a, fst (m w) = Returned a -> Q a).

(** The wire payload with every optional member present that a client
    result stands for, given the text of its creation timestamp. *)
Definition denormalize (out : ExtractResult) (created_at : string) : ApiExtractionResult :=
  {| er_id := res_id out;
     er_status := res_status out;
     er_domain_pack := res_domainPack out;
     er_data := res_data out;
     er_confidence := res_confidence out;
     er_bounding_boxes := res_boundingBoxes out;
     er_metadata :=
       Some {| md_pages := Some (pages (res_metadata out));
               md_processing_time_ms := Some (processingTimeMs (res_metadata out));
               md_model_version := Some (modelVersion (res_metadata out));
               md_created_at := Some created_at |};
     er_warnings := res_warnings out |}.

(** Terminal status, as the data model has it. *)
Definition terminal (j : ApiJobStatus) : Prop :=
  js_status j = "completed" \/ js_status j = "failed".

(** Where the loop of [waitForJob] stops: [completed] with a result, or
    [failed]. On any other snapshot it sleeps and polls again. *)
Definition stops (j : ApiJobStatus) : bool :=
  (bool_decide (js_status j = "completed") && bool_decide (is_Some (js_result j)))
  || bool_decide (js_status j = "failed").

(** The first [n] status requests are issued before the deadline and each
    brings back a snapshot on which the loop goes on. *)
Definition keeps_polling (config : Config) (jobId : string)
    (pollInterval maxWait : Z) (n : nat) (w : World ApiJobStatus) : Prop :=
  forall i, (i < n)%nat ->
    let wi := at_test config jobId pollInterval i w in
    clock wi - clock w < maxWait /\
    exists j, next_snapshot config wi = Some j /\ stops j = false.

(** The error [waitForJob] throws for a failed job. *)
Definition job_failure (j : ApiJobStatus) : SdkError :=
  new_AutofillerError
    (default "Job failed" (js_error j ≫= je_message))
    (default "job_failed" (js_error j ≫= je_code)).

Definition job_timeout : SdkError :=
  new_AutofillerError "Job timed out waiting for completion" "job_timeout".

(** ** A concrete platform and concrete worlds, for the examples *)

Definition digit (c : ascii) : option Z :=
  let n := Z.of_nat (nat_of_ascii c) in
  if (48 <=? n) && (n <=? 57) then Some (n - 48) else None.

(** The number written by a list of decimal digits. *)
Fixpoint digits (acc : Z) (cs : list ascii) : option Z :=
  match cs with
  | [] => Some acc
  | c :: rest => d ← digit c; digits (10 * acc + d) rest
  end.

Definition leap_year (y : Z) : bool :=
  ((y mod 4 =? 0) && negb (y mod 100 =? 0)) || (y mod 400 =? 0).

Definition days_in_month (y m : Z) : Z :=
  if m =? 2 then (if leap_year y then 29 else 28)
  else if (m =? 4) || (m =? 6) || (m =? 9) || (m =? 11) then 30
  else 31.

(** Days from 1970-01-01 to the civil date [y]-[m]-[d]. *)
Definition days_from_civil (y m d : Z) : Z :=
  let y' := if m <=? 2 then y - 1 else y in
  let era := y' / 400 in
  let yoe := y' - era * 400 in
  let doy := (153 * (if 2 <? m then m - 3 else m + 9) + 2) / 5 + d - 1 in
  let doe := yoe * 365 + yoe / 4 - yoe / 100 + doy in
  era * 146097 + doe - 719468.

(** [Date.parse] on the form [YYYY-MM-DDTHH:MM:SSZ]; every other string
    is rejected. *)
Definition parse_utc (s : string) : option Z :=
  match list_ascii_of_string s with
  | [y1; y2; y3; y4; p1; m1; m2; p2; d1; d2; p3; h1; h2; p4; i1; i2; p5; s1; s2; p6] =>
      if bool_decide ([p1; p2; p3; p4; p5; p6] = list_ascii_of_string "--T::Z")
      then
        y ← digits 0 [y1; y2; y3; y4];
        m ← digits 0 [m1; m2];
        d ← digits 0 [d1; d2];
        h ← digits 0 [h1; h2];
        i ← digits 0 [i1; i2];
        sec ← digits 0 [s1; s2];
        if (1 <=? m) && (m <=? 12) && (1 <=? d) && (d <=? days_in_month y m)
           && (h <=? 23) && (i <=? 59) && (sec <=? 59)
        then Some ((((days_from_civil y m d * 24 + h) * 60 + i) * 60 + sec) * 1000)
        else None
      else None
  | _ => None
  end.

(** The part of a path after its last slash. *)
Fixpoint last_segment (acc : string) (s : string) : string :=
  match s with
  | EmptyString => acc
  | String c rest =>
      if bool_decide (c = "/"%char) then last_segment rest rest
      else last_segment acc rest
  end.

Definition sample_platform : Platform :=
  {| Date_parse := parse_utc;
     path_resolve := fun p =>
       match p with
       | String "/" _ => p
       | String "." (String "/" rest) => "/srv/app/" +:+ rest
       | _ => "/srv/app/" +:+ p
       end;
     path_basename := fun p => last_segment p p;
     multipart_boundary := "--------------------------067042308058" |}.

Definition sample_config : Config :=
  {| apiKey := "sk_test_1"; baseUrl := DEFAULT_BASE_URL;
     timeout := DEFAULT_TIMEOUT; maxRetries := DEFAULT_MAX_RETRIES |}.

(** A world with the given heap, at time 0, in which nothing was sent and
    timers fire on time. *)
Definition world_of {T} (h : gmap loc Obj) (answers : nat -> Exchange T) : World T :=
  mkWorld h 0 [] answers (fun _ => 0).

(** A JSON answer with the given status, error view and payload. *)
Definition json_response {T} (s : N) (reason : string) (e : ErrorData) (payload : T) : Response T :=
  mkResponse s reason (IsJson (mkDocument e payload)).

Definition no_error_data : ErrorData := mkErrorData None None.

Definition sample_metadata : ApiMetadata :=
  {| md_pages := Some (2 : Q); md_processing_time_ms := Some (1250 : Q);
     md_model_version := Some "2024.1";
     md_created_at := Some "2024-01-15T00:00:00Z" |}.

Definition sample_result : ApiExtractionResult :=
  {| er_id := "ext_1"; er_status := "completed";
     er_domain_pack := "invoice-standard";
     er_data := [("invoice_number", JString "INV-7"); ("total_amount", JNumber (120 : Q))];
     er_confidence := Some [("invoice_number", (99 # 100)%Q)];
     er_bounding_boxes :=
       Some [("invoice_number", mkBoundingBox (1 : Q) (10 : Q) (20 : Q) (80 : Q) (12 : Q))];
     er_metadata := Some sample_metadata;
     er_warnings := Some ["low resolution"] |}.

(** A job snapshot with the given status, result and error. *)
Definition snapshot (st : string) (r : option ApiExtractionResult)
    (e : option ApiJobError) : ApiJobStatus :=
  {| js_job_id := "job_1"; js_status := st; js_progress := None;
     js_result := r; js_error := e;
     js_created_at := "2024-01-15T00:00:00Z"; js_completed_at := None |}.

(** An answer after [ms] milliseconds with status 200 and the snapshot as
    its body. *)
Definition answer_snapshot (ms : Z) (j : ApiJobStatus) : Exchange ApiJobStatus :=
  mkExchange ms (Resolves (json_response 200 "OK" no_error_data j)).

(** The job of the scenario of the specification: [processing] on the
    first poll, [completed] with its result from the second. *)
Definition two_polls (n : nat) : Exchange ApiJobStatus :=
  match n with
  | O => answer_snapshot 40 (snapshot "processing" None None)
  | _ => answer_snapshot 40 (snapshot "completed" (Some sample_result) None)
  end.

(** A server that reports [completed] but never embeds a result. *)
Definition completed_without_result (n : nat) : Exchange ApiJobStatus :=
  answer_snapshot 0 (snapshot "completed" None None).

(** A server that stays in [processing]. *)
Definition always_processing (n : nat) : Exchange ApiJobStatus :=
  answer_snapshot 100 (snapshot "processing" None None).

(** A server whose first answer, [completed] with its result, takes 1500
    milliseconds. *)
Definition slow_completed (n : nat) : Exchange ApiJobStatus :=
  answer_snapshot 1500 (snapshot "completed" (Some sample_result) None).

(** A server that answers 200 with a body that is not JSON. *)
Definition html_on_success (n : nat) : Exchange ApiJobStatus :=
  mkExchange 20 (Resolves (mkResponse 200 "OK" (NotJson "Unexpected token < in JSON at position 0"))).

(** A server that answers after 31 seconds. *)
Definition too_slow (n : nat) : Exchange ApiJobStatus :=
  answer_snapshot 31000 (snapshot "processing" None None).

(** A server that answers 503 with a body that is not JSON. *)
Definition unavailable (n : nat) : Exchange ApiJobStatus :=
  mkExchange 20 (Resolves (mkResponse 503 "Service Unavailable" (NotJson "Unexpected end of JSON input"))).

(** A 429 whose body carries a code of its own. *)
Definition rate_limited (n : nat) : Exchange ApiJobStatus :=
  mkExchange 20
    (Resolves (json_response 429 "Too Many Requests"
                 (mkErrorData (Some "quota_exhausted") (Some "slow down"))
                 (snapshot "pending" None None))).

(** A server that answers 401, and one that answers 429, with the body
    [null]. *)
Definition unauthorized_null (n : nat) : Exchange ApiJobStatus :=
  mkExchange 20 (Resolves (mkResponse 401 "Unauthorized" IsNull)).

Definition rate_limited_null (n : nat) : Exchange ApiJobStatus :=
  mkExchange 20 (Resolves (mkResponse 429 "Too Many Requests" IsNull)).

(** A job whose timestamps are not timestamps. *)
Definition bad_timestamps (n : nat) : Exchange ApiJobStatus :=
  answer_snapshot 20
    {| js_job_id := "job_1"; js_status := "completed"; js_progress := None;
       js_result :=
         Some {| er_id := "ext_1"; er_status := "completed";
                 er_domain_pack := "invoice-standard"; er_data := [];
                 er_confidence := None; er_bounding_boxes := None;
                 er_metadata := Some (mkApiMetadata None None None (Some "yesterday"));
                 er_warnings := None |};
       js_error := None;
       js_created_at := "not-a-date"; js_completed_at := Some "soon" |}.

(** An options object holding a buffer and no filename, and one holding a
    path with every option set. *)
Definition buffer_options : ExtractOptions :=
  {| file := FileBuffer [Byte.x25; Byte.x50; Byte.x44; Byte.x46]; filename := None;
     domainPack := Some "invoice-standard"; includeConfidence := Some true;
     includeBoundingBoxes := None; language := None; webhookUrl := None |}.

Definition path_options : ExtractOptions :=
  {| file := FilePath "./invoice.pdf"; filename := None;
     domainPack := Some "invoice-standard"; includeConfidence := Some true;
     includeBoundingBoxes := Some false; language := Some "en";
     webhookUrl := None |}.

(** ** client.ts: health check and domain packs *)

(** The answer to [GET /health]. *)
Record ApiHealth : Type := mkApiHealth {
  ah_status : string;
  ah_version : string;
  ah_timestamp : string
}.

Record HealthStatus : Type := mkHealthStatus {
  health_status : string;
  health_version : string;
  health_timestamp : JsDate
}.

(** [routing] has the same shape on the wire and in the client model. *)
Record Routing : Type := mkRouting {
  keywords : option (list string);
  anchors : option (list string)
}.

Record ApiDomainPack : Type := mkApiDomainPack {
  dp_name : string;
  dp_version : string;
  dp_description : string;
  dp_schema : list (string * Json);
  dp_routing : option Routing;
  dp_supported_formats : option (list string)
}.

Record DomainPack : Type := mkDomainPack {
  pack_name : string;
  pack_version : string;
  pack_description : string;
  pack_schema : list (string * Json);
  pack_routing : option Routing;
  pack_supportedFormats : option (list string)
}.

(** The answer to [GET /domain-packs]. *)
Record ApiDomainPackList : Type := mkApiDomainPackList {
  dl_items : list ApiDomainPack
}.

Section Catalogue.
Context {platform : Platform}.

(** [health()]. *)
Definition health (config : Config) : M ApiHealth HealthStatus :=
  response <- request config "/health"
                (mkRequestOptions GET None None (Some false));;
  response <- read_object "status" response;;
  ret {| health_status := ah_status response;
         health_version := ah_version response;
         health_timestamp := new_Date_string (ah_timestamp response) |}.

(** [transformDomainPack(pack)]. *)
Definition transformDomainPack (pack : ApiDomainPack) : DomainPack :=
  {| pack_name := dp_name pack;
     pack_version := dp_version pack;
     pack_description := dp_description pack;
     pack_schema := dp_schema pack;
     pack_routing := dp_routing pack;
     pack_supportedFormats := dp_supported_formats pack |}.

(** [listDomainPacks()]. *)
Definition listDomainPacks (config : Config) : M ApiDomainPackList (list DomainPack) :=
  response <- request config "/domain-packs"
                (mkRequestOptions GET None None None);;
  response <- read_object "items" response;;
  ret (map transformDomainPack (dl_items response)).

(** [getDomainPack(packName)]. *)
Definition getDomainPack (config : Config) (packName : string) : M ApiDomainPack DomainPack :=
  response <- request config ("/domain-packs/" +:+ packName)
                (mkRequestOptions GET None None None);;
  response <- read_object "name" response;;
  ret (transformDomainPack response).

End Catalogue.

(** ** Notions used in the further properties *)

(** [o[k]] on a plain object. *)
Fixpoint get_member {V} (k : string) (o : list (string * V)) : option V :=
  match o with
  | [] => None
  | (k', v) :: rest => if bool_decide (k' = k) then Some v else get_member k rest
  end.

(** The time one [fetch] takes in [w]: the latency of the answer, or the
    timeout when the answer would come later. *)
Definition fetch_time {T} (config : Config) (w : World T) : Z :=
  if timeout config <? latency (next_exchange w)
  then timeout config else latency (next_exchange w).

(** The world after one call of [request]. *)
Definition requested {T} (config : Config) (endpoint : string)
    (options : RequestOptions) (w : World T) : World T :=
  advance (fetch_time config w) (record_request (outgoing config endpoint options w) w).


(** The classes the transport throws by itself. *)
Definition transport_class (c : ErrorClass) : bool :=
  match c with
  | ExtractionError => false
  | _ => true
  end.

(** The name each class gives its instances. *)
Definition class_name (c : ErrorClass) : string :=
  match c with
  | AutofillerError => "AutofillerError"
  | ValidationError => "ValidationError"
  | AuthenticationError => "AuthenticationError"
  | RateLimitError => "RateLimitError"
  | ExtractionError => "ExtractionError"
  end.

(** The file entry [buildFormData] appends for an options object. *)
Definition file_entry {platform : Platform} (o : ExtractOptions) : FormEntry :=
  match file o with
  | FilePath p =>
      mkFormEntry "file" (ReadStream (path_resolve p))
        (Some (default (path_basename (path_resolve p)) (filename o)))
  | FileBuffer bytes => mkFormEntry "file" (BufferValue bytes) (filename o)
  | FileBlob bytes =>
      mkFormEntry "file" (BlobValue bytes) (Some (default "document" (filename o)))
  end.

(** The members of the local [extractOptions] object when it is
    stringified. *)
Definition scalar_options (o : ExtractOptions) : list (string * Json) :=
  match includeConfidence o with
  | Some b => [("include_confidence", JBool b)]
  | None => []
  end ++
  match includeBoundingBoxes o with
  | Some b => [("include_bounding_boxes", JBool b)]
  | None => []
  end ++
  (if truthy (language o)
   then [("language", JString (default EmptyString (language o)))]
   else []).

(** The entries of the form [buildFormData] returns, in order. *)
Definition entries_of {platform : Platform} (o : ExtractOptions) : list FormEntry :=
  file_entry o ::
  (if truthy (domainPack o)
   then [mkFormEntry "domain_pack" (TextValue (default EmptyString (domainPack o))) None]
   else []) ++
  match scalar_options o with
  | [] => []
  | members => [mkFormEntry "options" (JsonText members) None]
  end.

(** The entry [extractAsync] adds for a webhook. *)
Definition webhook_entries (o : ExtractOptions) : list FormEntry :=
  if truthy (webhookUrl o)
  then [mkFormEntry "webhook_url" (TextValue (default EmptyString (webhookUrl o))) None]
  else [].

(** The options [buildFormData] makes a form of: a path that resolves to
    one without a NUL character, or a buffer with a filename. *)
Definition accepted {platform : Platform} (o : ExtractOptions) : bool :=
  match file o with
  | FilePath p => negb (has_nul (path_resolve p))
  | FileBuffer _ => truthy (filename o)
  | FileBlob _ => false
  end.

(** The delays [setTimeout] takes as given on Node; any other delay is
    replaced by 1 ms there, which [fetch] and [sleep] do not model. *)
Definition timer_range (delay : Z) : Prop := 1 <= delay <= 2147483647.

(** The call hands [request] no object to stringify: no body, or a
    form. *)
Definition no_json_body {T} (options : RequestOptions) (w : World T) : Prop :=
  snd (resolve_body (heap w) (ro_body options)) = false.

(** What [request] makes of the error that [handleErrorResponse] runs
    into on a body [null]. *)
Definition null_body_error : SdkError :=
  new_AutofillerError
    ("Request failed: " +:+ "Cannot read properties of null (reading 'message')")
    "request_failed".

(** The fields of a form. *)
Definition fields (entries : list FormEntry) : list string := map fe_field entries.

(** The headers of a multipart request of the client. *)
Definition multipart_headers {platform : Platform} (config : Config) : list (string * string) :=
  [("content-type", "multipart/form-data; boundary=" +:+ multipart_boundary);
   ("Authorization", "Bearer " +:+ apiKey config)].

(** [m] returns from [w], and its result and final world satisfy [Q]. *)
Definition runs {T A} (m : M T A) (w : World T) (Q : A -> World T -> Prop) : Prop :=
  exists a w', m w = (Returned a, w') /\ Q a w'.

(** What [buildFormData] leaves behind when it returns: a new form with
    the entries of the options object, in a world that differs from [w]
    in its heap only, where the options object is as before. *)
Definition built {platform : Platform} {T} (w : World T) (options : loc)
    (o : ExtractOptions) (formData : loc) (w' : World T) : Prop :=
  exists h, w' = set_heap h w /\
    heap w !! formData = None /\
    h !! formData = Some (FormDataObj (entries_of o)) /\
    h !! options = Some (OptionsObj o).

(** [m] leaves every object at a location of [D] as it is; what it
    returns satisfies [Q]. *)
Definition keeps {T A} (D : gset loc) (m : M T A) (Q : A -> Prop) : Prop :=
  forall w : World T, D ⊆ dom (heap w) ->
    (forall l, l ∈ D -> heap (snd (m w)) !! l = heap w !! l) /\
    (forall a, fst (m w) = Returned a -> Q a).

(** The outcome of [x <- m;; o <- read_object property x;; ret (f o)],
    from the outcome of [m]. *)
Definition then_read {A B} (property : string) (f : A -> B)
    (out : Outcome (option A)) : Outcome B :=
  match out with
  | Returned (Some a) => Returned (f a)
  | Returned None => Raised (null_read property)
  | Raised t => Raised t
  | Unfinished => Unfinished
  end.

(** The wire pack a client pack stands for. *)
Definition wire_pack (pack : DomainPack) : ApiDomainPack :=
  {| dp_name := pack_name pack;
     dp_version := pack_version pack;
     dp_description := pack_description pack;
     dp_schema := pack_schema pack;
     dp_routing := pack_routing pack;
     dp_supported_formats := pack_supportedFormats pack |}.

(** * Properties *)

(** ** Transport and error classification *)

Section Transport.
Context {T : Type}.
Implicit Types (w : World T) (config : Config) (response : Response T).

Lemma instanceof_base e : instanceof e AutofillerError = true.
Proof. unfold instanceof. apply orb_true_r. Qed.

Lemma handleErrorResponse_raises {A} response w :
  handleErrorResponse (A:=A) response w =
  (Raised match json response with
          | IsNull => null_read "message"
          | _ => ThrowSdk (classified response)
          end, w).
Proof.
  unfold handleErrorResponse, classified, error_message, error_code, bestEffort,
    bind, try_catch, response_json.
  destruct (json response) as [why| |doc]; cbn; try reflexivity;
    (destruct (status response) as [|p]; [reflexivity|]);
    repeat (destruct p as [p|p|]; try reflexivity).
Qed.

(** The [switch] of [handleErrorResponse], as a chain of tests. *)
Lemma classified_cases response :
  classified response =
  if (status response =? 401)%N
  then new_AuthenticationError (Some (error_message response))
  else if (status response =? 429)%N
  then new_RateLimitError (Some (error_message response))
  else if ((status response =? 400) || (status response =? 422))%N
  then new_ValidationError (error_message response)
  else new_AutofillerError (error_message response) (error_code response).
Proof.
  unfold classified.
  destruct (status response) as [|p]; [reflexivity|].
  repeat (destruct p as [p|p|]; try reflexivity).
Qed.

Lemma classified_generic response :
  dedicated (status response) = false ->
  classified response =
  new_AutofillerError (error_message response) (error_code response).
Proof.
  rewrite classified_cases. unfold dedicated.
  destruct (status response =? 401)%N; [discriminate|].
  destruct (status response =? 429)%N; [discriminate|].
  destruct (status response =? 400)%N; [discriminate|].
  destruct (status response =? 422)%N; [discriminate|]. reflexivity.
Qed.

Lemma classified_message response :
  err_message (classified response) = error_message response.
Proof.
  rewrite classified_cases.
  repeat match goal with |- context [if ?b then _ else _] => destruct b end;
    reflexivity.
Qed.

Lemma request_body_run (body : option loc) w :
  request_body body w = (Returned (resolve_body (heap w) body), w).
Proof.
  destruct body as [l|]; [|reflexivity].
  unfold request_body, resolve_body, bind, load.
  destruct (heap w !! l) as [[o|entries|members]|]; reflexivity.
Qed.

(** [request] is its [try] block around one [fetch] of [outgoing]. *)
Lemma request_run config endpoint options w :
  request config endpoint options w =
  try_catch
    (response <- fetch (timeout config) (outgoing config endpoint options w);;
     when (negb (ok response)) (handleErrorResponse response);;;
     doc <- response_json response;;
     ret (option_map asPayload doc))
    request_catch w.
Proof.
  unfold request at 1, bind at 1. rewrite request_body_run. reflexivity.
Qed.

Lemma request_aborted config endpoint options w :
  timeout config < latency (next_exchange w) ->
  request config endpoint options w =
  (Raised (ThrowSdk (new_AutofillerError "Request timed out" "timeout")),
   advance (timeout config) (record_request (outgoing config endpoint options w) w)).
Proof.
  intros Hlate. rewrite request_run.
  unfold try_catch, bind, fetch. fold (next_exchange w).
  destruct (Z.ltb_spec (timeout config) (latency (next_exchange w))); [|lia].
  reflexivity.
Qed.

Lemma request_rejected config endpoint options w reason :
  latency (next_exchange w) <= timeout config ->
  reply (next_exchange w) = Rejects reason ->
  request config endpoint options w =
  request_catch reason
    (advance (latency (next_exchange w))
       (record_request (outgoing config endpoint options w) w)).
Proof.
  intros Hlat Hreply. rewrite request_run.
  unfold try_catch, bind, fetch. fold (next_exchange w).
  destruct (Z.ltb_spec (timeout config) (latency (next_exchange w))); [lia|].
  rewrite Hreply. reflexivity.
Qed.

Lemma request_answered config endpoint options w response :
  answered config w response ->
  request config endpoint options w =
  (if ok response
   then match json response with
        | IsJson doc => Returned (Some (asPayload doc))
        | IsNull => Returned None
        | NotJson why =>
            Raised (ThrowSdk (new_AutofillerError ("Request failed: " +:+ why)
                                "request_failed"))
        end
   else match json response with
        | IsNull => Raised (ThrowSdk null_body_error)
        | _ => Raised (ThrowSdk (classified response))
        end,
   advance (latency (next_exchange w))
     (record_request (outgoing config endpoint options w) w)).
Proof.
  intros [Hlat Hreply]. rewrite request_run.
  unfold try_catch, bind at 1, fetch. fold (next_exchange w).
  destruct (Z.ltb_spec (timeout config) (latency (next_exchange w))); [lia|].
  rewrite Hreply. unfold bind at 1, when.
  destruct (ok response); cbn [negb].
  - unfold ret at 1, bind, response_json.
    destruct (json response) as [why| |doc]; reflexivity.
  - rewrite handleErrorResponse_raises. unfold request_catch.
    destruct (json response) as [why| |doc];
      [rewrite instanceof_base; reflexivity | reflexivity
      | rewrite instanceof_base; reflexivity].
Qed.

Lemma request_answered_error config endpoint options w response :
  answered config w response -> ok response = false -> json response <> IsNull ->
  request config endpoint options w =
  (Raised (ThrowSdk (classified response)),
   advance (latency (next_exchange w))
     (record_request (outgoing config endpoint options w) w)).
Proof.
  intros Hans Hok Hnull. rewrite (request_answered _ _ _ _ _ Hans), Hok.
  destruct (json response); [reflexivity | contradiction | reflexivity].
Qed.

Lemma generic_same_kind m c m' c' :
  same_kind (new_AutofillerError m c) (new_AutofillerError m' c').
Proof. split; reflexivity. Qed.

End Transport.

Lemma classified_determined {T T'} (response : Response T) (response' : Response T') :
  status response' = status response ->
  statusText response' = statusText response ->
  bestEffort response' = bestEffort response ->
  classified response' = classified response.
Proof.
  intros Hs Ht Hb. unfold classified, error_message, error_code.
  rewrite Hs, Ht, Hb. reflexivity.
Qed.

Lemma ok_determined {T T'} (response : Response T) (response' : Response T') :
  status response' = status response -> ok response' = ok response.
Proof. intros Hs. unfold ok. rewrite Hs. reflexivity. Qed.

(** X17. Away from a body [null], and under a timeout the timer takes as
    given: on a non-2xx response the client throws
    an error fixed by the status, the reason phrase and the best-effort
    parsed error body, and by nothing else of the call: 401 gives an
    AuthenticationError, 429 a RateLimitError, 400 and 422 a
    ValidationError, every other status a generic AutofillerError; the
    message is the body's message, or the reason phrase; the code of the
    generic error is the body's code, or [http_<status>]. *)
Lemma classification_of_object_bodies {T} (config : Config) (endpoint : string)
    (options : RequestOptions) (w : World T) (response : Response T) :
  timer_range (timeout config) ->
  answered config w response -> ok response = false ->
  json response <> IsNull ->
  exists e w',
    request config endpoint options w = (Raised (ThrowSdk e), w') /\
    (status response = 401%N ->
       err_class e = AuthenticationError /\ err_name e = "AuthenticationError") /\
    (status response = 429%N ->
       err_class e = RateLimitError /\ err_name e = "RateLimitError") /\
    (status response = 400%N \/ status response = 422%N ->
       err_class e = ValidationError /\ err_name e = "ValidationError") /\
    (dedicated (status response) = false ->
       err_class e = AutofillerError /\ err_name e = "AutofillerError" /\
       err_code e =
         default ("http_" +:+ decimal (status response))
           (ed_code (bestEffort response))) /\
    err_message e =
      default (statusText response) (ed_message (bestEffort response)) /\
    (forall why, json response = NotJson why ->
       err_message e = statusText response /\
       (dedicated (status response) = false ->
          err_code e = "http_" +:+ decimal (status response))) /\
    (forall T' config' endpoint' options' (w1 : World T') (response' : Response T'),
       timer_range (timeout config') ->
       answered config' w1 response' ->
       status response' = status response ->
       statusText response' = statusText response ->
       json response' <> IsNull ->
       bestEffort response' = bestEffort response ->
       exists w1',
         request config' endpoint' options' w1 = (Raised (ThrowSdk e), w1')).
Proof.
  intros _ Hans Hok Hnull. exists (classified response). eexists.
  split; [rewrite (request_answered_error _ _ _ _ _ Hans Hok Hnull); reflexivity|].
  split; [intros Hs; rewrite classified_cases, Hs; split; reflexivity|].
  split; [intros Hs; rewrite classified_cases, Hs; split; reflexivity|].
  split; [intros [Hs|Hs]; rewrite classified_cases, Hs; split; reflexivity|].
  split; [intros Hd; rewrite (classified_generic _ Hd); repeat split; reflexivity|].
  split; [apply classified_message|].
  split.
  - intros why Hjson. split.
    + rewrite classified_message. unfold error_message, bestEffort.
      rewrite Hjson. reflexivity.
    + intros Hd. rewrite (classified_generic _ Hd). unfold error_code, bestEffort.
      rewrite Hjson. reflexivity.
  - intros T' config' endpoint' options' w1 response' _ Hans' Hs Ht Hnull' Hb.
    eexists. rewrite (request_answered_error _ _ _ _ _ Hans'); [| |exact Hnull'].
    + rewrite (classified_determined response response' Hs Ht Hb). reflexivity.
    + rewrite (ok_determined response response' Hs). exact Hok.
Qed.

Lemma classification_of_object_bodies_witness :
  let w := world_of ∅ unavailable in
  let response :=
    mkResponse (T:=ApiJobStatus) 503 "Service Unavailable"
      (NotJson "Unexpected end of JSON input") in
  timer_range (timeout sample_config) /\
  answered sample_config w response /\ ok response = false /\
  exists e w',
    request sample_config "/jobs/job_1" (mkRequestOptions GET None None None) w
    = (Raised (ThrowSdk e), w') /\
    err_class e = AutofillerError /\ err_code e = "http_503" /\
    err_message e = "Service Unavailable".
Proof.
  intros w response.
  assert (Hrange : timer_range (timeout sample_config))
    by (split; apply Z.leb_le; reflexivity).
  assert (Hans : answered sample_config w response)
    by (split; [apply Z.leb_le; reflexivity | reflexivity]).
  assert (Hok : ok response = false) by reflexivity.
  split; [exact Hrange|]. split; [exact Hans|]. split; [exact Hok|].
  destruct (classification_of_object_bodies sample_config "/jobs/job_1"
              (mkRequestOptions GET None None None) w response Hrange Hans Hok
              ltac:(discriminate))
    as (e & w' & Hrun & _ & _ & _ & Hgen & Hmsg & _).
  exists e, w'. split; [exact Hrun|].
  destruct (Hgen eq_refl) as (Hc & _ & Hcode).
  split; [exact Hc|]. split; [exact Hcode | exact Hmsg].
Defined.

(** C1. The classification is not kept at a body [null]: a 401 answered
    with the JSON value [null] makes [handleErrorResponse] throw a
    TypeError on reading [errorData.message], which the [catch] of
    [request] turns into a generic AutofillerError with code
    [request_failed]; the client does not throw an AuthenticationError. *)
Theorem null_body_on_401_is_request_failed :
  let w := world_of ∅ unauthorized_null in
  exists response e,
    answered sample_config w response /\ ok response = false /\
    status response = 401%N /\ json response = IsNull /\
    fst (request sample_config "/jobs/job_1"
           (mkRequestOptions GET None None None) w) = Raised (ThrowSdk e) /\
    err_class e = AutofillerError /\ err_class e <> AuthenticationError /\
    err_code e = "request_failed" /\
    err_message e =
      "Request failed: Cannot read properties of null (reading 'message')".
Proof.
  intros w. exists (mkResponse 401 "Unauthorized" IsNull). eexists.
  split; [split; [apply Z.leb_le; reflexivity | reflexivity]|].
  do 4 (split; [reflexivity|]).
  split; [reflexivity|]. split; [discriminate|]. split; reflexivity.
Qed.

Lemma classified_dedicated {T T'} (response : Response T) (response' : Response T') :
  dedicated (status response) = true ->
  status response' = status response ->
  error_message response' = error_message response ->
  classified response' = classified response.
Proof.
  intros Hd Hs Hm. rewrite !classified_cases, Hs, Hm. unfold dedicated in Hd.
  destruct (status response =? 401)%N; [reflexivity|].
  destruct (status response =? 429)%N; [reflexivity|].
  destruct (status response =? 400)%N; [reflexivity|].
  destruct (status response =? 422)%N; [reflexivity|discriminate].
Qed.

(** X18. Away from a body [null], and under a timeout the timer takes as
    given: for the statuses 401, 429, 400 and 422
    the code of the thrown error is the fixed code of its class, whatever code
    the body carries: two such responses with the same status and the same
    message give the same error. The body's code shows only in the generic
    error. *)
Lemma dedicated_codes_of_object_bodies {T} (config : Config) (endpoint : string)
    (options : RequestOptions) (w : World T) (response : Response T) :
  timer_range (timeout config) ->
  answered config w response -> ok response = false ->
  json response <> IsNull ->
  exists e w',
    request config endpoint options w = (Raised (ThrowSdk e), w') /\
    (status response = 401%N -> err_code e = "authentication_error") /\
    (status response = 429%N -> err_code e = "rate_limit_exceeded") /\
    (status response = 400%N \/ status response = 422%N ->
       err_code e = "validation_error") /\
    (dedicated (status response) = true ->
       err_message e =
         default (statusText response) (ed_message (bestEffort response)) /\
       forall (w1 : World T) (response' : Response T),
         answered config w1 response' ->
         status response' = status response ->
         json response' <> IsNull ->
         error_message response' = error_message response ->
         exists w1',
           request config endpoint options w1 = (Raised (ThrowSdk e), w1')) /\
    (dedicated (status response) = false ->
       forall c, ed_code (bestEffort response) = Some c -> err_code e = c).
Proof.
  intros _ Hans Hok Hnull. exists (classified response). eexists.
  split; [rewrite (request_answered_error _ _ _ _ _ Hans Hok Hnull); reflexivity|].
  split; [intros Hs; rewrite classified_cases, Hs; reflexivity|].
  split; [intros Hs; rewrite classified_cases, Hs; reflexivity|].
  split; [intros [Hs|Hs]; rewrite classified_cases, Hs; reflexivity|].
  split.
  - intros Hd. split; [apply classified_message|].
    intros w1 response' Hans' Hs Hnull' Hm. eexists.
    rewrite (request_answered_error _ _ _ _ _ Hans'); [| |exact Hnull'].
    + rewrite (classified_dedicated response response' Hd Hs Hm). reflexivity.
    + rewrite (ok_determined response response' Hs). exact Hok.
  - intros Hd c Hc. rewrite (classified_generic _ Hd).
    unfold error_code. cbn. rewrite Hc. reflexivity.
Qed.

Lemma dedicated_codes_of_object_bodies_witness :
  let w := world_of ∅ rate_limited in
  timer_range (timeout sample_config) /\
  exists response e w',
    answered sample_config w response /\ ok response = false /\
    ed_code (bestEffort response) = Some "quota_exhausted" /\
    request sample_config "/jobs/job_1" (mkRequestOptions GET None None None) w
    = (Raised (ThrowSdk e), w') /\
    err_code e = "rate_limit_exceeded" /\ err_message e = "slow down".
Proof.
  intros w.
  pose (response := json_response 429 "Too Many Requests"
                      (mkErrorData (Some "quota_exhausted") (Some "slow down"))
                      (snapshot "pending" None None)).
  assert (Hans : answered sample_config w response)
    by (split; [apply Z.leb_le; reflexivity | reflexivity]).
  assert (Hok : ok response = false) by reflexivity.
  assert (Hrange : timer_range (timeout sample_config))
    by (split; apply Z.leb_le; reflexivity).
  split; [exact Hrange|].
  destruct (dedicated_codes_of_object_bodies sample_config "/jobs/job_1"
              (mkRequestOptions GET None None None) w response Hrange Hans Hok
              ltac:(discriminate))
    as (e & w' & Hrun & _ & Hcode & _ & Hded & _).
  exists response, e, w'.
  split; [exact Hans|]. split; [exact Hok|]. split; [reflexivity|].
  split; [exact Hrun|]. split; [exact (Hcode eq_refl)|].
  exact (proj1 (Hded eq_refl)).
Defined.

(** C10. The fixed code is not kept at a body [null]: a 429 answered with
    the JSON value [null] gives an error whose code is [request_failed],
    not [rate_limit_exceeded], and whose class is the generic one; the
    same TypeError on reading [errorData.message] is behind it as for a
    401. *)
Theorem null_body_on_429_loses_the_fixed_code :
  let w := world_of ∅ rate_limited_null in
  exists response e,
    answered sample_config w response /\ ok response = false /\
    status response = 429%N /\ json response = IsNull /\
    fst (request sample_config "/jobs/job_1"
           (mkRequestOptions GET None None None) w) = Raised (ThrowSdk e) /\
    err_code e = "request_failed" /\ err_code e <> "rate_limit_exceeded" /\
    err_class e = AutofillerError /\ err_class e <> RateLimitError.
Proof.
  intros w. exists (mkResponse 429 "Too Many Requests" IsNull). eexists.
  split; [split; [apply Z.leb_le; reflexivity | reflexivity]|].
  do 4 (split; [reflexivity|]).
  split; [reflexivity|]. split; [discriminate|].
  split; [reflexivity | discriminate].
Qed.

(** C4, as the client does it. A 2xx response whose body is not JSON makes
    the call fail with a generic AutofillerError with code
    [request_failed] and the parser's message after [Request failed: ]; its
    class and name are those of every generic error. *)
Theorem malformed_success_is_request_failed {T} (config : Config)
    (endpoint : string) (options : RequestOptions) (w : World T)
    (response : Response T) (why : string) :
  answered config w response -> ok response = true ->
  json response = NotJson why ->
  exists e w',
    request config endpoint options w = (Raised (ThrowSdk e), w') /\
    e = new_AutofillerError ("Request failed: " +:+ why) "request_failed" /\
    err_class e = AutofillerError /\ err_name e = "AutofillerError" /\
    err_code e = "request_failed" /\
    (forall m c, same_kind e (new_AutofillerError m c)).
Proof.
  intros Hans Hok Hjson. eexists. eexists.
  split; [rewrite (request_answered _ _ _ _ _ Hans), Hok, Hjson; reflexivity|].
  do 4 (split; [reflexivity|]). intros m c. apply generic_same_kind.
Qed.

Lemma malformed_success_is_request_failed_witness :
  let w := world_of ∅ html_on_success in
  exists e w',
    request sample_config "/jobs/job_1" (mkRequestOptions GET None None None) w
    = (Raised (ThrowSdk e), w') /\
    err_code e = "request_failed" /\
    err_message e = "Request failed: Unexpected token < in JSON at position 0".
Proof.
  intros w.
  pose (response := mkResponse (T:=ApiJobStatus) 200 "OK"
                      (NotJson "Unexpected token < in JSON at position 0")).
  assert (Hans : answered sample_config w response)
    by (split; [apply Z.leb_le; reflexivity | reflexivity]).
  destruct (malformed_success_is_request_failed sample_config "/jobs/job_1"
              (mkRequestOptions GET None None None) w response _ Hans
              eq_refl eq_refl)
    as (e & w' & Hrun & -> & _).
  eexists. exists w'. split; [exact Hrun|]. split; reflexivity.
Defined.

(** C4, as stated, fails: the error thrown for a 2xx response with a body
    that is not JSON is not named ProtocolError, and neither its class nor
    its name tells it from a generic AutofillerError. *)
Lemma malformed_success_not_protocol_error :
  let w := world_of ∅ html_on_success in
  exists response why e,
    answered sample_config w response /\ ok response = true /\
    json response = NotJson why /\
    fst (request sample_config "/jobs/job_1"
           (mkRequestOptions GET None None None) w) = Raised (ThrowSdk e) /\
    err_name e <> "ProtocolError" /\
    (forall m c, same_kind e (new_AutofillerError m c)).
Proof.
  intros w.
  exists (mkResponse 200 "OK" (NotJson "Unexpected token < in JSON at position 0")).
  eexists. eexists.
  split; [split; [apply Z.leb_le; reflexivity | reflexivity]|].
  split; [reflexivity|]. split; [reflexivity|]. split; [reflexivity|].
  split; [discriminate|]. intros m c. apply generic_same_kind.
Qed.

(** C5, as the client does it. A request that is not answered within the
    configured timeout is aborted when the timeout has passed, and the
    call fails with a generic AutofillerError with code [timeout] and
    message [Request timed out]; only the code tells it from other generic
    errors. *)
Theorem aborted_request_is_generic_timeout {T} (config : Config)
    (endpoint : string) (options : RequestOptions) (w : World T) :
  timeout config < latency (next_exchange w) ->
  exists e w',
    request config endpoint options w = (Raised (ThrowSdk e), w') /\
    e = new_AutofillerError "Request timed out" "timeout" /\
    err_class e = AutofillerError /\ err_name e = "AutofillerError" /\
    err_code e = "timeout" /\
    (forall m c, same_kind e (new_AutofillerError m c)) /\
    clock w' = clock w + timeout config /\
    sent w' = sent w ++ [outgoing config endpoint options w].
Proof.
  intros Hlate. eexists. eexists.
  split; [rewrite (request_aborted _ _ _ _ Hlate); reflexivity|].
  do 4 (split; [reflexivity|]).
  split; [intros m c; apply generic_same_kind|]. split; reflexivity.
Qed.

Lemma aborted_request_is_generic_timeout_witness :
  let w := world_of ∅ too_slow in
  timeout sample_config < latency (next_exchange w) /\
  exists e w',
    request sample_config "/jobs/job_1" (mkRequestOptions GET None None None) w
    = (Raised (ThrowSdk e), w') /\
    err_code e = "timeout" /\ clock w' = 30000.
Proof.
  intros w.
  assert (Hlate : timeout sample_config < latency (next_exchange w))
    by reflexivity.
  split; [exact Hlate|].
  destruct (aborted_request_is_generic_timeout sample_config "/jobs/job_1"
              (mkRequestOptions GET None None None) w Hlate)
    as (e & w' & Hrun & -> & _ & _ & _ & _ & Hclock & _).
  eexists. exists w'. split; [exact Hrun|]. split; [reflexivity | exact Hclock].
Defined.

(** C5, as stated, fails: the error thrown for an aborted request is not
    of a kind Timeout; its class and name are those of a generic
    AutofillerError. *)
Lemma aborted_request_not_timeout_kind :
  let w := world_of ∅ too_slow in
  exists e,
    timeout sample_config < latency (next_exchange w) /\
    fst (request sample_config "/jobs/job_1"
           (mkRequestOptions GET None None None) w) = Raised (ThrowSdk e) /\
    err_name e <> "Timeout" /\ err_name e <> "TimeoutError" /\
    (forall m c, same_kind e (new_AutofillerError m c)).
Proof.
  intros w. eexists.
  split; [reflexivity|]. split; [reflexivity|].
  split; [discriminate|]. split; [discriminate|].
  intros m c. apply generic_same_kind.
Qed.

(** ** Job poller *)

Section Poller.
Context {platform : Platform}.
Variables (config : Config) (jobId : string) (pollInterval maxWait : Z).
Implicit Types (w : World ApiJobStatus) (j : ApiJobStatus).

Lemma next_snapshot_answered w j :
  next_snapshot config w = Some j ->
  exists response doc,
    answered config w response /\ ok response = true /\
    json response = IsJson doc /\ asPayload doc = j.
Proof.
  unfold next_snapshot, answered.
  destruct (Z.ltb_spec (timeout config) (latency (next_exchange w))); [discriminate|].
  destruct (reply (next_exchange w)) as [response|]; [|discriminate].
  destruct (ok response) eqn:Hok; [|discriminate].
  destruct (json response) as [| |doc] eqn:Hjson; [discriminate|discriminate|].
  intros [= <-]. exists response, doc. auto.
Qed.

Lemma getJob_snapshot w j :
  next_snapshot config w = Some j ->
  getJob config jobId w =
  (Returned (transformJobStatus (clock (polled config jobId w)) j),
   polled config jobId w).
Proof.
  intros (response & doc & Hans & Hok & Hjson & <-)%next_snapshot_answered.
  unfold getJob, bind at 1.
  rewrite (request_answered _ _ _ _ _ Hans), Hok, Hjson.
  reflexivity.
Qed.

Lemma loop_deadline fuel startTime w :
  maxWait <= clock w - startTime ->
  waitForJob_loop (S fuel) config jobId pollInterval maxWait startTime w =
  (Raised (ThrowSdk job_timeout), w).
Proof.
  intros Hlate. cbn [waitForJob_loop]. unfold bind at 1, Date_now.
  destruct (Z.ltb_spec (clock w - startTime) maxWait); [lia|]. reflexivity.
Qed.

Lemma loop_polls fuel startTime w j :
  clock w - startTime < maxWait ->
  next_snapshot config w = Some j ->
  waitForJob_loop (S fuel) config jobId pollInterval maxWait startTime w =
  match bool_decide (js_status j = "completed"), js_result j with
  | true, Some r =>
      (Returned (transformExtractionResult (clock (polled config jobId w)) r),
       polled config jobId w)
  | _, _ =>
      if bool_decide (js_status j = "failed")
      then (Raised (ThrowSdk (job_failure j)), polled config jobId w)
      else waitForJob_loop fuel config jobId pollInterval maxWait startTime
             (after_poll config jobId pollInterval w)
  end.
Proof.
  intros Hopen Hsnap. cbn [waitForJob_loop]. unfold bind at 1, Date_now.
  destruct (Z.ltb_spec (clock w - startTime) maxWait); [|lia].
  unfold bind at 1. rewrite (getJob_snapshot _ _ Hsnap).
  cbn [transformJobStatus job_status job_result job_error]. unfold job_failure.
  destruct (bool_decide (js_status j = "completed")), (js_result j) as [r|];
    try reflexivity;
    (destruct (bool_decide (js_status j = "failed")); [destruct (js_error j); reflexivity|]);
    reflexivity.
Qed.

Lemma loop_goes_on fuel startTime w j :
  clock w - startTime < maxWait ->
  next_snapshot config w = Some j -> stops j = false ->
  waitForJob_loop (S fuel) config jobId pollInterval maxWait startTime w =
  waitForJob_loop fuel config jobId pollInterval maxWait startTime
    (after_poll config jobId pollInterval w).
Proof.
  intros Hopen Hsnap Hgo. rewrite (loop_polls _ _ _ _ Hopen Hsnap).
  unfold stops in Hgo. apply orb_false_iff in Hgo as [Hc ->].
  destruct (bool_decide (js_status j = "completed")); [|destruct (js_result j); reflexivity].
  destruct (js_result j) as [r|]; [|reflexivity].
  cbn [andb] in Hc. apply bool_decide_eq_false in Hc. destruct Hc. eauto.
Qed.

Lemma at_test_succ i w :
  at_test config jobId pollInterval (S i) w =
  at_test config jobId pollInterval i (after_poll config jobId pollInterval w).
Proof. unfold at_test. apply Nat.iter_succ_r. Qed.

Lemma sent_after_poll w :
  sent (after_poll config jobId pollInterval w) = sent w ++ [poll_request config jobId].
Proof. reflexivity. Qed.

Lemma sent_at_test n w :
  sent (at_test config jobId pollInterval n w) =
  sent w ++ repeat (poll_request config jobId) n.
Proof.
  revert w. induction n as [|n IH]; intros w.
  - cbn. now rewrite app_nil_r.
  - rewrite at_test_succ, IH, sent_after_poll, <- app_assoc. reflexivity.
Qed.

(** While the deadline is open and the snapshots do not stop the loop,
    [n] iterations take the loop to the [n]-th test. *)
Lemma loop_iterates n : forall fuel startTime w,
  (forall i, (i < n)%nat ->
     clock (at_test config jobId pollInterval i w) - startTime < maxWait /\
     exists j, next_snapshot config (at_test config jobId pollInterval i w) = Some j /\
               stops j = false) ->
  waitForJob_loop (n + fuel) config jobId pollInterval maxWait startTime w =
  waitForJob_loop fuel config jobId pollInterval maxWait startTime
    (at_test config jobId pollInterval n w).
Proof.
  induction n as [|n IH]; intros fuel startTime w Hpolls; [reflexivity|].
  destruct (Hpolls O ltac:(lia)) as (Hopen & j & Hsnap & Hgo).
  cbn [Nat.add]. rewrite (loop_goes_on _ _ _ _ Hopen Hsnap Hgo), at_test_succ.
  apply IH. intros i Hi. rewrite <- at_test_succ. apply Hpolls. lia.
Qed.
End Poller.

(** C2, as the client does it. When the first [n] status requests each
    bring back a snapshot on which the loop goes on, the deadline test
    passes before request [n+1], and that request brings back a snapshot
    that is [failed], or [completed] with an embedded result, then
    [waitForJob] issues exactly these [n+1] status requests: it returns
    the normalized embedded result of a [completed] snapshot and throws a
    generic AutofillerError for a [failed] one, with the job's message and
    code, or [Job failed] and [job_failed] where they are absent. *)
Theorem waitForJob_stops_at_first_stop {platform : Platform} (config : Config)
    (jobId : string) (pollInterval maxWait : option Z)
    (w : World ApiJobStatus) (n : nat) (j : ApiJobStatus) :
  let every := default 2000 pollInterval in
  let limit := default 300000 maxWait in
  let wn := at_test config jobId every n w in
  keeps_polling config jobId every limit n w ->
  clock wn - clock w < limit ->
  next_snapshot config wn = Some j ->
  stops j = true ->
  forall fuel, (n < fuel)%nat ->
  exists out w',
    waitForJob fuel config jobId pollInterval maxWait w = (out, w') /\
    sent w' = sent w ++ repeat (poll_request config jobId) (S n) /\
    (forall r, js_status j = "completed" -> js_result j = Some r ->
       out = Returned (transformExtractionResult (clock w') r)) /\
    (js_status j = "failed" ->
       exists e,
         out = Raised (ThrowSdk e) /\
         err_class e = AutofillerError /\ err_name e = "AutofillerError" /\
         err_message e = default "Job failed" (js_error j ≫= je_message) /\
         err_code e = default "job_failed" (js_error j ≫= je_code)).
Proof.
  intros every limit wn Hpolls Hopen Hsnap Hstop fuel Hfuel.
  assert (Hsent : sent (polled config jobId wn)
                  = sent w ++ repeat (poll_request config jobId) (S n)).
  { change (sent (polled config jobId wn)) with (sent wn ++ [poll_request config jobId]).
    unfold wn. rewrite sent_at_test, <- app_assoc.
    f_equal. now rewrite <- repeat_cons. }
  destruct fuel as [|fuel]; [lia|].
  replace (S fuel) with (n + S (fuel - n))%nat by lia.
  unfold waitForJob, bind at 1, Date_now.
  fold every limit. rewrite (loop_iterates config jobId every limit n); [|exact Hpolls].
  fold wn. rewrite (loop_polls _ _ _ _ _ _ _ _ Hopen Hsnap).
  unfold stops in Hstop.
  destruct (bool_decide_reflect (js_status j = "completed")) as [Hc|Hc];
    [destruct (js_result j) as [r|] eqn:Hr|].
  - eexists. eexists. split; [reflexivity|]. split; [exact Hsent|]. split.
    + intros r' _ [= <-]. reflexivity.
    + intros Hf. congruence.
  - cbn in Hstop. destruct (bool_decide_reflect (js_status j = "failed")); [|discriminate].
    congruence.
  - cbn in Hstop. destruct (bool_decide_reflect (js_status j = "failed")) as [Hf|];
      [|discriminate].
    eexists. eexists. split; [destruct (js_result j); reflexivity|].
    split; [exact Hsent|]. split; [intros r Hc'; contradiction|].
    intros _. exists (job_failure j). repeat split; reflexivity.
Qed.

Lemma waitForJob_stops_at_first_stop_witness :
  let w := world_of ∅ two_polls in
  keeps_polling sample_config "job_1" 2000 300000 1 w /\
  exists r w',
    waitForJob (platform:=sample_platform) 5 sample_config "job_1" None None w
    = (Returned r, w') /\
    res_id r = "ext_1" /\
    sent w' = [poll_request sample_config "job_1"; poll_request sample_config "job_1"].
Proof.
  intros w.
  assert (Hpolls : keeps_polling sample_config "job_1" 2000 300000 1 w).
  { intros i Hi. destruct i as [|i]; [|lia].
    split; [reflexivity|]. eexists. split; reflexivity. }
  split; [exact Hpolls|].
  destruct (waitForJob_stops_at_first_stop (platform:=sample_platform)
              sample_config "job_1" None None w 1
              (snapshot "completed" (Some sample_result) None)
              Hpolls eq_refl eq_refl eq_refl 5%nat ltac:(lia))
    as (out & w' & Hrun & Hsent & Hdone & _).
  eexists. exists w'.
  split; [rewrite Hrun, (Hdone _ eq_refl eq_refl); reflexivity|].
  split; [reflexivity | exact Hsent].
Defined.

(** C2, as stated, fails: a first snapshot with the terminal status
    [completed] and no embedded result does not stop the loop. With a poll
    every second and a limit of 2.5 seconds, three status requests are
    issued and the wait ends in [job_timeout]. *)
Lemma completed_without_result_polls_on :
  let w := world_of ∅ completed_without_result in
  let run :=
    waitForJob (platform:=sample_platform) 10 sample_config "job_1"
      (Some 1000) (Some 2500) w in
  (exists j, next_snapshot sample_config w = Some j /\ terminal j) /\
  sent (snd run) = repeat (poll_request sample_config "job_1") 3 /\
  fst run = Raised (ThrowSdk job_timeout).
Proof.
  intros w run.
  split; [eexists; split; [reflexivity | left; reflexivity]|].
  split; reflexivity.
Qed.

(** C3, as the client does it. When the first [n] status requests are
    issued before the deadline and each brings back a snapshot on which
    the loop goes on, and at the next test of the loop condition the time
    elapsed since the start of the wait has reached [maxWait], then
    [waitForJob] fails with a generic AutofillerError with code
    [job_timeout], having issued these [n] status requests and no other. A
    status request already issued is awaited, however long it takes. *)
Theorem waitForJob_times_out {platform : Platform} (config : Config)
    (jobId : string) (pollInterval maxWait : option Z)
    (w : World ApiJobStatus) (n : nat) :
  let every := default 2000 pollInterval in
  let limit := default 300000 maxWait in
  keeps_polling config jobId every limit n w ->
  limit <= clock (at_test config jobId every n w) - clock w ->
  forall fuel, (n < fuel)%nat ->
  exists e w',
    waitForJob fuel config jobId pollInterval maxWait w = (Raised (ThrowSdk e), w') /\
    err_class e = AutofillerError /\ err_name e = "AutofillerError" /\
    err_code e = "job_timeout" /\
    err_message e = "Job timed out waiting for completion" /\
    w' = at_test config jobId every n w /\
    sent w' = sent w ++ repeat (poll_request config jobId) n.
Proof.
  intros every limit Hpolls Hlate fuel Hfuel.
  exists job_timeout, (at_test config jobId every n w).
  split.
  - destruct fuel as [|fuel]; [lia|].
    replace (S fuel) with (n + S (fuel - n))%nat by lia.
    unfold waitForJob, bind at 1, Date_now. fold every limit.
    rewrite (loop_iterates config jobId every limit n); [|exact Hpolls].
    apply loop_deadline. exact Hlate.
  - do 5 (split; [reflexivity|]). apply sent_at_test.
Qed.

Lemma waitForJob_times_out_witness :
  let w := world_of ∅ always_processing in
  keeps_polling sample_config "job_1" 1000 2500 3 w /\
  exists e w',
    waitForJob (platform:=sample_platform) 10 sample_config "job_1"
      (Some 1000) (Some 2500) w = (Raised (ThrowSdk e), w') /\
    err_code e = "job_timeout" /\ clock w' = 3300 /\
    sent w' = repeat (poll_request sample_config "job_1") 3.
Proof.
  intros w.
  assert (Hpolls : keeps_polling sample_config "job_1" 1000 2500 3 w).
  { intros i Hi. destruct i as [|[|[|i]]]; [| | |lia];
      (split; [reflexivity|]; eexists; split; reflexivity). }
  split; [exact Hpolls|].
  destruct (waitForJob_times_out (platform:=sample_platform) sample_config
              "job_1" (Some 1000) (Some 2500) w 3 Hpolls
              ltac:(apply Z.leb_le; reflexivity) 10%nat ltac:(lia))
    as (e & w' & Hrun & _ & _ & Hcode & _ & -> & Hsent).
  exists e. eexists. split; [exact Hrun|]. split; [exact Hcode|].
  split; [reflexivity | exact Hsent].
Defined.

(** C3, as stated, fails: with a limit of one second, a first status
    request answered after 1.5 seconds with [completed] and its result is
    the only poll, and it sees no terminal status before the second is
    over; the wait returns the result and does not fail. *)
Lemma late_answer_is_returned :
  let w := world_of ∅ slow_completed in
  let run :=
    waitForJob (platform:=sample_platform) 10 sample_config "job_1"
      (Some 1000) (Some 1000) w in
  clock (polled sample_config "job_1" w) - clock w = 1500 /\
  1000 < 1500 /\
  fst run = Returned (transformExtractionResult (platform:=sample_platform) 1500 sample_result) /\
  sent (snd run) = [poll_request sample_config "job_1"].
Proof.
  intros w run. split; [reflexivity|]. split; [reflexivity|].
  split; reflexivity.
Qed.

(** ** Result normalizer *)

(** C8. A wire extraction result with every optional member present is
    normalized member by member: identifier, status, domain pack, data,
    confidence, bounding boxes, warnings and the metadata numbers and
    version are the wire values, the creation timestamp is the date its
    text denotes, and the payload is recovered from the result and that
    text. With every optional member absent the result is built all the
    same, with [pages = 0], [processingTimeMs = 0],
    [modelVersion = "unknown"] and the current time. *)
Theorem normalization_round_trip {platform : Platform} (now : Z) :
  (forall id st pack data conf boxes p t v c warns,
     let wire :=
       mkApiExtractionResult id st pack data (Some conf) (Some boxes)
         (Some (mkApiMetadata (Some p) (Some t) (Some v) (Some c))) (Some warns) in
     transformExtractionResult now wire =
       mkExtractResult id st pack data (Some conf) (Some boxes)
         (mkExtractionMetadata p t v (new_Date_string c)) (Some warns) /\
     denormalize (transformExtractionResult now wire) c = wire /\
     (forall ms, Date_parse c = Some ms ->
        createdAt (res_metadata (transformExtractionResult now wire)) = ValidDate ms)) /\
  (forall id st pack data,
     transformExtractionResult now
       (mkApiExtractionResult id st pack data None None None None) =
     mkExtractResult id st pack data None None
       (mkExtractionMetadata (0 : Q) (0 : Q) "unknown" (ValidDate now)) None) /\
  (forall id st pack data,
     transformExtractionResult now
       (mkApiExtractionResult id st pack data None None
          (Some (mkApiMetadata None None None None)) None) =
     mkExtractResult id st pack data None None
       (mkExtractionMetadata (0 : Q) (0 : Q) "unknown" (ValidDate now)) None).
Proof.
  split; [|split; reflexivity].
  intros id st pack data conf boxes p t v c warns wire.
  split; [reflexivity|]. split; [reflexivity|].
  intros ms Hms. cbn. unfold new_Date_string. rewrite Hms. reflexivity.
Qed.

Lemma normalization_round_trip_witness :
  Date_parse (Platform:=sample_platform) "2024-01-15T00:00:00Z" = Some 1705276800000 /\
  createdAt (res_metadata (transformExtractionResult (platform:=sample_platform) 0 sample_result))
  = ValidDate 1705276800000 /\
  denormalize (transformExtractionResult (platform:=sample_platform) 0 sample_result)
    "2024-01-15T00:00:00Z" = sample_result.
Proof.
  destruct (normalization_round_trip (platform:=sample_platform) 0) as (Hfull & _).
  destruct (Hfull "ext_1" "completed" "invoice-standard"
              (er_data sample_result)
              [("invoice_number", (99 # 100)%Q)]
              [("invoice_number", mkBoundingBox (1 : Q) (10 : Q) (20 : Q) (80 : Q) (12 : Q))]
              (2 : Q) (1250 : Q) "2024.1" "2024-01-15T00:00:00Z" ["low resolution"])
    as (_ & Hback & Hdate).
  split; [reflexivity|]. split; [exact (Hdate _ eq_refl) | exact Hback].
Defined.

Lemma invalid_when_unparsable {platform : Platform} (s : string) :
  Date_parse s = None -> new_Date_string s = InvalidDate.
Proof. intros Hs. unfold new_Date_string. rewrite Hs. reflexivity. Qed.

(** C6, as the client does it. Normalizing a job status never fails:
    [getJob] returns the normalized snapshot whenever the transport brings
    one back. A creation timestamp that does not parse becomes an Invalid
    Date, in the job and in its embedded result, and so does a non-empty
    completion timestamp; an empty completion timestamp is read as
    absent. *)
Theorem unparsable_timestamp_is_invalid_date {platform : Platform}
    (config : Config) (jobId : string) (w : World ApiJobStatus)
    (j : ApiJobStatus) :
  next_snapshot config w = Some j ->
  exists out w',
    getJob config jobId w = (Returned out, w') /\
    out = transformJobStatus (clock w') j /\
    (Date_parse (js_created_at j) = None -> job_createdAt out = InvalidDate) /\
    (forall s, js_completed_at j = Some s -> s <> EmptyString ->
       Date_parse s = None -> job_completedAt out = Some InvalidDate) /\
    (js_completed_at j = Some EmptyString -> job_completedAt out = None) /\
    (forall r m s,
       js_result j = Some r -> er_metadata r = Some m ->
       md_created_at m = Some s -> Date_parse s = None ->
       exists res,
         job_result out = Some res /\
         res = transformExtractionResult (clock w') r /\
         createdAt (res_metadata res) = InvalidDate).
Proof.
  intros Hsnap. eexists. eexists.
  split; [apply (getJob_snapshot _ _ _ _ Hsnap)|].
  split; [reflexivity|].
  split; [intros Hp; cbn; now apply invalid_when_unparsable|].
  split.
  { intros s Hc Hne Hp. cbn. rewrite Hc.
    destruct s as [|c a]; [contradiction|]. cbn.
    now rewrite invalid_when_unparsable. }
  split; [intros Hc; cbn; rewrite Hc; reflexivity|].
  intros r m s Hr Hm Hs Hp. eexists.
  split; [cbn; rewrite Hr; reflexivity|]. split; [reflexivity|].
  cbn. unfold metadata_member. rewrite Hm, Hs.
  now apply invalid_when_unparsable.
Qed.

Lemma unparsable_timestamp_is_invalid_date_witness :
  let w := world_of ∅ bad_timestamps in
  exists j out w',
    next_snapshot sample_config w = Some j /\
    Date_parse (Platform:=sample_platform) (js_created_at j) = None /\
    getJob (platform:=sample_platform) sample_config "job_1" w = (Returned out, w') /\
    job_createdAt out = InvalidDate.
Proof.
  intros w.
  destruct (unparsable_timestamp_is_invalid_date (platform:=sample_platform)
              sample_config "job_1" w _ eq_refl)
    as (out & w' & Hrun & _ & Hcreated & _).
  eexists. exists out, w'.
  split; [reflexivity|]. split; [reflexivity|]. split; [exact Hrun|].
  apply Hcreated. reflexivity.
Defined.

(** C6, as stated, fails: a job status whose creation and completion
    timestamps, and whose result's creation timestamp, do not parse is
    normalized without any error; the three dates are Invalid Date. *)
Lemma unparsable_timestamps_do_not_fail :
  let w := world_of ∅ bad_timestamps in
  exists j out res,
    next_snapshot sample_config w = Some j /\
    Date_parse (Platform:=sample_platform) (js_created_at j) = None /\
    fst (getJob (platform:=sample_platform) sample_config "job_1" w) = Returned out /\
    job_createdAt out = InvalidDate /\
    job_completedAt out = Some InvalidDate /\
    job_result out = Some res /\
    createdAt (res_metadata res) = InvalidDate.
Proof.
  intros w. eexists. eexists. eexists.
  split; [reflexivity|]. split; [reflexivity|]. split; [reflexivity|].
  split; [reflexivity|]. split; [reflexivity|]. split; reflexivity.
Qed.

(** ** Request builder *)

Section Frame.
Context {platform : Platform} {T : Type}.
Variable D : gset loc.

Lemma preserves_ret {A} (a : A) (Q : A -> Prop) :
  Q a -> preserves (T:=T) D (ret a) Q.
Proof. intros HQ w _. cbn. repeat split; auto. now intros ? [= <-]. Qed.

Lemma preserves_raise {A} t (Q : A -> Prop) : preserves (T:=T) D (raise t) Q.
Proof. intros w _. cbn. repeat split; auto. discriminate. Qed.

Lemma preserves_weaken {A} (m : M T A) (Q R : A -> Prop) :
  preserves D m Q -> (forall a, Q a -> R a) -> preserves D m R.
Proof.
  intros Hm HQR w HD. destruct (Hm w HD) as (? & ? & ? & ?). repeat split; auto.
Qed.

Lemma preserves_bind {A B} (m : M T A) (k : A -> M T B) (Q : A -> Prop) (R : B -> Prop) :
  preserves D m Q -> (forall a, Q a -> preserves D (k a) R) ->
  preserves D (bind m k) R.
Proof.
  intros Hm Hk w HD. destruct (Hm w HD) as (Hheap & Hsent & Hclock & HQ).
  unfold bind. destruct (m w) as [[a|t|] w1] eqn:Hrun; cbn in *.
  - assert (HD1 : D ⊆ dom (heap w1)).
    { intros l Hl. apply elem_of_dom. rewrite (Hheap l Hl).
      apply elem_of_dom. auto. }
    destruct (Hk a (HQ a eq_refl) w1 HD1) as (Hheap' & Hsent' & Hclock' & HR).
    split; [|split; [congruence|split; [congruence|exact HR]]].
    intros l Hl. rewrite (Hheap' l Hl). auto.
  - split; [exact Hheap|]. split; [exact Hsent|]. split; [exact Hclock|]. discriminate.
  - split; [exact Hheap|]. split; [exact Hsent|]. split; [exact Hclock|]. discriminate.
Qed.

Lemma preserves_alloc o : preserves (T:=T) D (alloc o) (fun l => l ∉ D).
Proof.
  intros w HD. cbn. pose proof (is_fresh (dom (heap w))) as Hfresh.
  repeat split; auto.
  - intros l Hl. apply lookup_insert_ne. intros <-. apply Hfresh. auto.
  - intros a [= <-] Hin. apply Hfresh. auto.
Qed.

Lemma preserves_load l : preserves (T:=T) D (load l) (fun _ => True).
Proof. intros w _. cbn. repeat split; auto. Qed.

Lemma preserves_store l o :
  l ∉ D -> preserves (T:=T) D (store l o) (fun _ => True).
Proof.
  intros Hl w _. cbn. repeat split; auto.
  intros l' Hl'. apply lookup_insert_ne. intros <-. auto.
Qed.

Lemma preserves_get_option {A} (f : ExtractOptions -> A) options :
  preserves (T:=T) D (get_option f options) (fun _ => True).
Proof.
  unfold get_option. eapply preserves_bind; [apply preserves_load|].
  intros [[o|?|?]|] _; first [now apply preserves_ret | apply preserves_raise].
Qed.

Lemma preserves_FormData_append formData field value fname :
  formData ∉ D ->
  preserves (T:=T) D (FormData_append formData field value fname) (fun _ => True).
Proof.
  intros Hl. unfold FormData_append. eapply preserves_bind; [apply preserves_load|].
  intros [[?|entries|?]|] _; try apply preserves_raise.
  destruct value; first [now apply preserves_store | apply preserves_raise].
Qed.

Lemma preserves_set_property record k v :
  record ∉ D ->
  preserves (T:=T) D (set_property record k v) (fun _ => True).
Proof.
  intros Hl. unfold set_property. eapply preserves_bind; [apply preserves_load|].
  intros [[?|?|members]|] _; first [now apply preserves_store | apply preserves_raise].
Qed.

Lemma preserves_get_members record :
  preserves (T:=T) D (get_members record) (fun _ => True).
Proof.
  unfold get_members. eapply preserves_bind; [apply preserves_load|].
  intros [[?|?|members]|] _; first [now apply preserves_ret | apply preserves_raise].
Qed.

Lemma preserves_when b (m : M T unit) :
  preserves D m (fun _ => True) -> preserves D (when b m) (fun _ => True).
Proof. intros Hm. destruct b; [exact Hm | now apply preserves_ret]. Qed.

Lemma preserves_buildFormData options :
  preserves (T:=T) D (buildFormData options) (fun formData => formData ∉ D).
Proof.
  unfold buildFormData.
  eapply preserves_bind; [apply preserves_alloc|]. intros formData Hform.
  eapply preserves_bind; [apply preserves_get_option|]. intros f _.
  eapply preserves_bind.
  { destruct f as [p|bytes|bytes];
      (eapply preserves_bind; [apply preserves_get_option|]); intros fname _.
    - eapply preserves_bind with (Q := fun _ => True).
      + unfold fs_createReadStream. destruct (has_nul (path_resolve p));
          [apply preserves_raise | now apply preserves_ret].
      + intros stream _. now apply preserves_FormData_append.
    - destruct (negb (truthy fname));
        [apply preserves_raise | now apply preserves_FormData_append].
    - now apply preserves_FormData_append. }
  intros _ _.
  eapply preserves_bind; [apply preserves_get_option|]. intros pack _.
  eapply preserves_bind;
    [apply preserves_when; now apply preserves_FormData_append|]. intros _ _.
  eapply preserves_bind; [apply preserves_alloc|]. intros extractOptions Hrec.
  eapply preserves_bind; [apply preserves_get_option|]. intros conf _.
  eapply preserves_bind.
  { destruct conf; [now apply preserves_set_property | now apply preserves_ret]. }
  intros _ _.
  eapply preserves_bind; [apply preserves_get_option|]. intros boxes _.
  eapply preserves_bind.
  { destruct boxes; [now apply preserves_set_property | now apply preserves_ret]. }
  intros _ _.
  eapply preserves_bind; [apply preserves_get_option|]. intros lang _.
  eapply preserves_bind;
    [apply preserves_when; now apply preserves_set_property|]. intros _ _.
  eapply preserves_bind; [apply preserves_get_members|]. intros members _.
  eapply preserves_bind;
    [apply preserves_when; now apply preserves_FormData_append|]. intros _ _.
  now apply preserves_ret.
Qed.
End Frame.

Section Builder.
Context {platform : Platform} {T : Type}.

Lemma fresh_not_allocated (w : World T) l o :
  heap w !! l = Some o -> fresh (dom (heap w)) <> l.
Proof.
  intros Hl Heq. apply (is_fresh (dom (heap w))). rewrite Heq.
  apply elem_of_dom. eauto.
Qed.

Lemma buildFormData_buffer_without_filename (w : World T) options o bytes :
  heap w !! options = Some (OptionsObj o) ->
  file o = FileBuffer bytes -> truthy (filename o) = false ->
  buildFormData options w =
  (Raised (ThrowSdk (new_ValidationError "filename is required when file is a Buffer")),
   set_heap (<[fresh (dom (heap w)) := FormDataObj []]> (heap w)) w).
Proof.
  intros Hopt Hfile Hname.
  unfold buildFormData, bind at 1, alloc.
  unfold bind at 1, get_option at 1, bind at 1, load. cbn [heap set_heap].
  rewrite lookup_insert_ne by (eapply fresh_not_allocated; eauto).
  rewrite Hopt. unfold ret at 1. rewrite Hfile.
  unfold bind at 1, bind at 1, get_option at 1, bind at 1, load. cbn [heap set_heap].
  rewrite lookup_insert_ne by (eapply fresh_not_allocated; eauto).
  rewrite Hopt. unfold ret at 1. rewrite Hname. reflexivity.
Qed.
End Builder.

(** C9. [buildFormData] leaves the caller's options object as it was,
    whatever the file input and the options set, whether it returns or
    throws; the same holds of every object that existed before the call. *)
Theorem buildFormData_leaves_options_unchanged {platform : Platform} {T}
    (w : World T) (options : loc) (o : ExtractOptions) :
  heap w !! options = Some (OptionsObj o) ->
  heap (snd (buildFormData options w)) !! options = Some (OptionsObj o) /\
  (forall l x, heap w !! l = Some x ->
     heap (snd (buildFormData options w)) !! l = Some x).
Proof.
  intros Hopt.
  assert (Hframe : forall l x, heap w !! l = Some x ->
            heap (snd (buildFormData options w)) !! l = Some x).
  { intros l x Hl.
    destruct (preserves_buildFormData (dom (heap w)) options w ltac:(reflexivity))
      as [Hheap _].
    rewrite Hheap; [exact Hl|]. apply elem_of_dom. eauto. }
  split; [apply Hframe; exact Hopt | exact Hframe].
Qed.

Lemma buildFormData_leaves_options_unchanged_witness :
  let w := world_of (T:=ApiExtractionResult) {[ 0%nat := OptionsObj path_options ]}
             (fun _ => mkExchange 10 (Rejects ThrowOther)) in
  heap w !! 0%nat = Some (OptionsObj path_options) /\
  fst (buildFormData (platform:=sample_platform) 0%nat w) = Returned 1%nat /\
  heap (snd (buildFormData (platform:=sample_platform) 0%nat w)) !! 0%nat
  = Some (OptionsObj path_options).
Proof.
  intros w. split; [reflexivity|]. split; [reflexivity|].
  exact (proj1 (buildFormData_leaves_options_unchanged
                  (platform:=sample_platform) w 0%nat path_options eq_refl)).
Defined.

(** C7. Validation at construction time fails with a ValidationError and
    issues no request: the constructor rejects a configuration whose API
    key is missing or empty, and [buildFormData], and with it [extract] and
    [extractAsync], rejects a buffer that comes without a filename. *)
Theorem construction_time_validation {platform : Platform} :
  (forall T (config : AutofillerConfig) (w : World T),
     cfg_apiKey config = None \/ cfg_apiKey config = Some EmptyString ->
     AutofillerClient_constructor config w =
     (Raised (ThrowSdk (new_ValidationError "API key is required")), w)) /\
  (forall T (w : World T) options o bytes,
     heap w !! options = Some (OptionsObj o) ->
     file o = FileBuffer bytes -> truthy (filename o) = false ->
     exists w',
       buildFormData options w =
       (Raised (ThrowSdk (new_ValidationError
                            "filename is required when file is a Buffer")), w') /\
       sent w' = sent w) /\
  (forall config (w : World ApiExtractionResult) options o bytes,
     heap w !! options = Some (OptionsObj o) ->
     file o = FileBuffer bytes -> truthy (filename o) = false ->
     exists w',
       extract config options w =
       (Raised (ThrowSdk (new_ValidationError
                            "filename is required when file is a Buffer")), w') /\
       sent w' = sent w) /\
  (forall config (w : World ApiAsyncJob) options o bytes,
     heap w !! options = Some (OptionsObj o) ->
     file o = FileBuffer bytes -> truthy (filename o) = false ->
     exists w',
       extractAsync config options w =
       (Raised (ThrowSdk (new_ValidationError
                            "filename is required when file is a Buffer")), w') /\
       sent w' = sent w).
Proof.
  split; [|split; [|split]].
  - intros T config w [Hkey|Hkey];
      unfold AutofillerClient_constructor; rewrite Hkey; reflexivity.
  - intros T w options o bytes Hopt Hfile Hname. eexists.
    split; [apply (buildFormData_buffer_without_filename _ _ _ _ Hopt Hfile Hname)|].
    reflexivity.
  - intros config w options o bytes Hopt Hfile Hname. eexists.
    unfold extract, bind at 1.
    rewrite (buildFormData_buffer_without_filename _ _ _ _ Hopt Hfile Hname).
    split; reflexivity.
  - intros config w options o bytes Hopt Hfile Hname. eexists.
    unfold extractAsync, bind at 1.
    rewrite (buildFormData_buffer_without_filename _ _ _ _ Hopt Hfile Hname).
    split; reflexivity.
Qed.

Lemma construction_time_validation_witness :
  let w := world_of (T:=ApiExtractionResult) {[ 0%nat := OptionsObj buffer_options ]}
             (fun _ => mkExchange 10
                         (Resolves (json_response 200 "OK" no_error_data sample_result))) in
  fst (AutofillerClient_constructor (mkAutofillerConfig None None None None) w)
  = Raised (ThrowSdk (new_ValidationError "API key is required")) /\
  exists w',
    extract (platform:=sample_platform) sample_config 0%nat w =
    (Raised (ThrowSdk (new_ValidationError
                         "filename is required when file is a Buffer")), w') /\
    sent w' = [].
Proof.
  intros w.
  destruct (construction_time_validation (platform:=sample_platform))
    as (Hkey & _ & Hextract & _).
  split.
  - rewrite (Hkey _ (mkAutofillerConfig None None None None) w (or_introl eq_refl)).
    reflexivity.
  - apply (Hextract sample_config w 0%nat buffer_options _ eq_refl eq_refl eq_refl).
Defined.

(** * Further properties *)

(** ** Constructor *)

(** X1. A configuration with a non-empty API key is accepted without any
    request: the key and every value given are kept as they are (a
    timeout of 0 included), and a value left out becomes its default, the
    base URL [https://api.autofiller.dev/v1], 30000 ms and 3 retries. *)
Theorem constructor_defaults {T} (config : AutofillerConfig) (w : World T)
    (c : ascii) (key : string) :
  cfg_apiKey config = Some (String c key) ->
  exists client,
    AutofillerClient_constructor config w = (Returned client, w) /\
    apiKey client = String c key /\
    (forall u, cfg_baseUrl config = Some u -> baseUrl client = u) /\
    (cfg_baseUrl config = None -> baseUrl client = "https://api.autofiller.dev/v1") /\
    (forall t, cfg_timeout config = Some t -> timeout client = t) /\
    (cfg_timeout config = None -> timeout client = 30000) /\
    (forall r, cfg_maxRetries config = Some r -> maxRetries client = r) /\
    (cfg_maxRetries config = None -> maxRetries client = 3).
Proof.
  intros Hkey. eexists. split.
  - unfold AutofillerClient_constructor. rewrite Hkey. reflexivity.
  - cbn. split; [reflexivity|].
    repeat split; intros; repeat match goal with H : _ = _ |- _ => rewrite H end;
      reflexivity.
Qed.

Lemma constructor_defaults_witness :
  exists client,
    AutofillerClient_constructor (mkAutofillerConfig (Some "sk_test_1") None (Some 0) None)
      (world_of ∅ two_polls) = (Returned client, world_of ∅ two_polls) /\
    baseUrl client = DEFAULT_BASE_URL /\ timeout client = 0 /\ maxRetries client = 3.
Proof.
  destruct (constructor_defaults
              (mkAutofillerConfig (Some "sk_test_1") None (Some 0) None)
              (world_of ∅ two_polls) "s" "k_test_1" eq_refl)
    as (client & Hrun & _ & _ & Hurl & Htime & _ & _ & Hretries).
  exists client. split; [exact Hrun|]. split; [exact (Hurl eq_refl)|].
  split; [exact (Htime 0 eq_refl) | exact (Hretries eq_refl)].
Defined.

(** ** Transport *)

Section Wrapping.
Context {T : Type}.
Implicit Types (w : World T) (config : Config).

Lemma request_catch_wraps {A} (reason : Thrown) w :
  exists e, request_catch (A:=A) reason w = (Raised (ThrowSdk e), w) /\
            instanceof e AutofillerError = true /\
            ((forall e', reason <> ThrowSdk e') ->
             err_class e = AutofillerError /\ err_name e = "AutofillerError").
Proof.
  destruct reason as [e|name message|]; cbn.
  - rewrite instanceof_base. exists e. split; [reflexivity|].
    split; [apply instanceof_base|]. intros Hne. now destruct (Hne e).
  - destruct (bool_decide (name = "AbortError")); eexists;
      (split; [reflexivity|]); split; reflexivity || (intros _; split; reflexivity).
  - eexists. split; [reflexivity|]. split; [reflexivity|]. intros _. split; reflexivity.
Qed.

Lemma classified_class (response : Response T) :
  transport_class (err_class (classified response)) = true /\
  err_name (classified response) = class_name (err_class (classified response)).
Proof.
  rewrite classified_cases.
  repeat match goal with |- context [if ?b then _ else _] => destruct b end;
    split; reflexivity.
Qed.

Lemma request_world config endpoint options w :
  exists out,
    request config endpoint options w = (out, requested config endpoint options w) /\
    ((exists payload, out = Returned payload) \/
     (exists e, out = Raised (ThrowSdk e) /\ instanceof e AutofillerError = true /\
        ((forall e', reply (next_exchange w) <> Rejects (ThrowSdk e')) ->
         transport_class (err_class e) = true /\
         err_name e = class_name (err_class e)))).
Proof.
  unfold requested, fetch_time.
  destruct (Z.ltb_spec (timeout config) (latency (next_exchange w))) as [Hlate|Hin].
  - rewrite (request_aborted _ _ _ _ Hlate). eexists. split; [reflexivity|].
    right. eexists. split; [reflexivity|]. split; [reflexivity|].
    intros _. split; reflexivity.
  - destruct (reply (next_exchange w)) as [response|reason] eqn:Hreply.
    + rewrite (request_answered config endpoint options w response (conj Hin Hreply)).
      eexists. split; [reflexivity|].
      destruct (ok response); destruct (json response);
        first [ left; eexists; reflexivity
              | right; eexists; split; [reflexivity|];
                split; [apply instanceof_base|]; intros _;
                first [apply classified_class | split; reflexivity] ].
    + rewrite (request_rejected _ _ _ _ _ Hin Hreply).
      destruct (request_catch_wraps (A:=option T) reason
                  (advance (latency (next_exchange w))
                     (record_request (outgoing config endpoint options w) w)))
        as (e & -> & He & Hclass).
      eexists. split; [reflexivity|]. right. exists e.
      split; [reflexivity|]. split; [exact He|].
      intros Hne. destruct Hclass as [Hc Hn].
      * intros e' ->. now apply (Hne e').
      * rewrite Hc, Hn. split; reflexivity.
Qed.

End Wrapping.

(** X2. A call of [request] with no body or with a form, under a timeout
    that [setTimeout] takes as given, issues exactly one [fetch] and
    touches no object; it ends with the parsed body (a payload, or [null]
    for a 2xx body [null]) or with an instance of AutofillerError, never
    with an error of the platform. Unless the network itself rejects with
    an SDK error, the error is of one of the four classes AutofillerError,
    ValidationError, AuthenticationError and RateLimitError, and carries
    its class's name. *)
Theorem request_one_fetch {T} (config : Config) (endpoint : string)
    (options : RequestOptions) (w : World T) :
  timer_range (timeout config) -> no_json_body options w ->
  exists out w',
    request config endpoint options w = (out, w') /\
    sent w' = sent w ++ [outgoing config endpoint options w] /\
    req_body (outgoing config endpoint options w) =
      fst (resolve_body (heap w) (ro_body options)) /\
    heap w' = heap w /\
    ((exists payload, out = Returned payload) \/
     (exists e, out = Raised (ThrowSdk e) /\ instanceof e AutofillerError = true /\
        ((forall e', reply (next_exchange w) <> Rejects (ThrowSdk e')) ->
         transport_class (err_class e) = true /\
         err_name e = class_name (err_class e)))).
Proof.
  intros _ _.
  destruct (request_world config endpoint options w) as (out & Hrun & Hout).
  exists out, (requested config endpoint options w).
  split; [exact Hrun|]. do 3 (split; [reflexivity|]). exact Hout.
Qed.

(** X3. A failure of the network becomes a generic AutofillerError with
    code [request_failed]: its message is [Request failed: ] followed by
    the message of the platform's error, or by [Unknown error] when what
    was thrown is not an Error. A rejection whose name is [AbortError] is
    reported as a timeout, whether or not the client's timer caused it. *)
Theorem network_failure_is_request_failed {T} (config : Config)
    (endpoint : string) (options : RequestOptions) (w : World T) :
  latency (next_exchange w) <= timeout config ->
  (forall name message,
     reply (next_exchange w) = Rejects (ThrowError name message) ->
     name <> "AbortError" ->
     fst (request config endpoint options w) =
     Raised (ThrowSdk (new_AutofillerError ("Request failed: " +:+ message)
                         "request_failed"))) /\
  (reply (next_exchange w) = Rejects ThrowOther ->
   fst (request config endpoint options w) =
   Raised (ThrowSdk (new_AutofillerError "Request failed: Unknown error"
                       "request_failed"))) /\
  (forall message,
     reply (next_exchange w) = Rejects (ThrowError "AbortError" message) ->
     fst (request config endpoint options w) =
     Raised (ThrowSdk (new_AutofillerError "Request timed out" "timeout"))).
Proof.
  intros Hin. split; [|split].
  - intros name message Hreply Hname.
    rewrite (request_rejected _ _ _ _ _ Hin Hreply). cbn.
    rewrite bool_decide_eq_false_2 by exact Hname. reflexivity.
  - intros Hreply. rewrite (request_rejected _ _ _ _ _ Hin Hreply). reflexivity.
  - intros message Hreply.
    rewrite (request_rejected _ _ _ _ _ Hin Hreply). reflexivity.
Qed.

Lemma network_failure_is_request_failed_witness :
  let w := world_of (T:=ApiJobStatus) ∅
             (fun _ => mkExchange 15 (Rejects (ThrowError "TypeError" "fetch failed"))) in
  latency (next_exchange w) <= timeout sample_config /\
  fst (request sample_config "/jobs/job_1" (mkRequestOptions GET None None None) w) =
  Raised (ThrowSdk (new_AutofillerError "Request failed: fetch failed" "request_failed")).
Proof.
  intros w.
  assert (Hin : latency (next_exchange w) <= timeout sample_config)
    by (apply Z.leb_le; reflexivity).
  split; [exact Hin|].
  destruct (network_failure_is_request_failed sample_config "/jobs/job_1"
              (mkRequestOptions GET None None None) w Hin) as (Herr & _).
  apply (Herr "TypeError" "fetch failed" eq_refl). discriminate.
Defined.

Lemma request_one_fetch_witness :
  let w := world_of ∅ unavailable in
  timer_range (timeout sample_config) /\
  no_json_body (mkRequestOptions GET None None None) w /\
  exists e w',
    request sample_config "/jobs/job_1" (mkRequestOptions GET None None None) w
    = (Raised (ThrowSdk e), w') /\
    sent w' = [poll_request sample_config "job_1"] /\
    err_name e = class_name (err_class e).
Proof.
  intros w.
  assert (Hrange : timer_range (timeout sample_config))
    by (split; apply Z.leb_le; reflexivity).
  assert (Hbody : no_json_body (mkRequestOptions GET None None None) w)
    by reflexivity.
  split; [exact Hrange|]. split; [exact Hbody|].
  destruct (request_one_fetch sample_config "/jobs/job_1"
              (mkRequestOptions GET None None None) w Hrange Hbody)
    as (out & w' & Hrun & Hsent & _ & _ & [[payload Hout]|(e & Hout & _ & Hclass)]).
  - exfalso. subst out. apply (f_equal fst) in Hrun. discriminate Hrun.
  - exists e, w'. subst out. split; [exact Hrun|]. split; [exact Hsent|].
    apply Hclass. intros e' Hreply. discriminate Hreply.
Defined.

Lemma get_set_member_eq {V} (k : string) (v : V) (o : list (string * V)) :
  get_member k (set_member k v o) = Some v.
Proof.
  induction o as [|[k' v'] rest IH]; cbn.
  - now rewrite bool_decide_eq_true_2.
  - destruct (bool_decide_reflect (k' = k)) as [->|Hne]; cbn.
    + now rewrite bool_decide_eq_true_2.
    + rewrite bool_decide_eq_false_2 by exact Hne. exact IH.
Qed.

Lemma get_set_member_ne {V} (k k0 : string) (v : V) (o : list (string * V)) :
  k0 <> k -> get_member k0 (set_member k v o) = get_member k0 o.
Proof.
  intros Hne. induction o as [|[k' v'] rest IH]; cbn.
  - rewrite bool_decide_eq_false_2 by congruence. reflexivity.
  - destruct (bool_decide_reflect (k' = k)) as [->|Hk]; cbn.
    + rewrite !bool_decide_eq_false_2 by congruence. reflexivity.
    + destruct (bool_decide (k' = k0)); [reflexivity | exact IH].
Qed.

(** X4. The request [request] sends carries [Authorization: Bearer
    <apiKey>] unless the call says [auth: false], also when the caller's
    headers hold an Authorization of their own; with [auth: false] the
    header is the caller's, if any. Every other header of the caller,
    Content-Type apart, goes out as given. *)
Theorem authorization_header {T} (config : Config) (endpoint : string)
    (options : RequestOptions) (w : World T) :
  let req := outgoing config endpoint options w in
  sent (snd (request config endpoint options w)) = sent w ++ [req] /\
  (ro_auth options <> Some false ->
   get_member "Authorization" (req_headers req) = Some ("Bearer " +:+ apiKey config)) /\
  (ro_auth options = Some false ->
   get_member "Authorization" (req_headers req) =
   get_member "Authorization" (default [] (ro_headers options))) /\
  (forall k, k <> "Authorization" -> k <> "Content-Type" ->
   get_member k (req_headers req) = get_member k (default [] (ro_headers options))).
Proof.
  intros req. split.
  { destruct (request_world config endpoint options w) as (out & -> & _). reflexivity. }
  unfold req, outgoing. cbn [req_headers].
  destruct (snd (resolve_body (heap w) (ro_body options)));
    (split; [|split]).
  - intros Hauth. rewrite get_set_member_ne by discriminate.
    destruct (ro_auth options) as [[|]|]; try contradiction; apply get_set_member_eq.
  - intros ->. now rewrite get_set_member_ne by discriminate.
  - intros k Hk1 Hk2. rewrite get_set_member_ne by congruence.
    destruct (default true (ro_auth options)); [|reflexivity].
    now rewrite get_set_member_ne by congruence.
  - intros Hauth.
    destruct (ro_auth options) as [[|]|]; try contradiction; apply get_set_member_eq.
  - intros ->. reflexivity.
  - intros k Hk1 Hk2.
    destruct (default true (ro_auth options)); [|reflexivity].
    now rewrite get_set_member_ne by congruence.
Qed.

Lemma authorization_header_witness :
  let options :=
    mkRequestOptions GET None
      (Some [("Authorization", "Bearer other"); ("X-Trace", "7")]) None in
  let w := world_of ∅ two_polls in
  ro_auth options <> Some false /\
  get_member "Authorization"
    (req_headers (outgoing sample_config "/jobs/job_1" options w))
  = Some "Bearer sk_test_1" /\
  get_member "X-Trace"
    (req_headers (outgoing sample_config "/jobs/job_1" options w))
  = Some "7".
Proof.
  intros options w.
  assert (Hauth : ro_auth options <> Some false) by discriminate.
  split; [exact Hauth|].
  destruct (authorization_header sample_config "/jobs/job_1" options w)
    as (_ & Hbearer & _ & Hother).
  split; [exact (Hbearer Hauth)|].
  rewrite (Hother "X-Trace") by discriminate. reflexivity.
Defined.

(** X5. [maxRetries] plays no part in a request: two clients that differ
    in it only behave alike, and with X2 each call issues one fetch; no
    request is ever retried. *)
Theorem maxRetries_is_never_used {T} (config : Config) (retries : Z)
    (endpoint : string) (options : RequestOptions) (w : World T) :
  request (mkConfig (apiKey config) (baseUrl config) (timeout config) retries)
    endpoint options w
  = request config endpoint options w /\
  length (sent (snd (request config endpoint options w))) = S (length (sent w)).
Proof.
  split; [destruct config; reflexivity|].
  destruct (request_world config endpoint options w) as (out & -> & _).
  cbn. rewrite length_app. cbn. lia.
Qed.

(** ** Health check and domain packs *)

Lemma request_then_read {T A} (config : Config) (endpoint : string)
    (options : RequestOptions) (property : string) (f : T -> A) (w : World T) :
  exists out,
    request config endpoint options w = (out, requested config endpoint options w) /\
    (response <- request config endpoint options;;
     response <- read_object property response;;
     ret (f response)) w
    = (then_read property f out, requested config endpoint options w).
Proof.
  destruct (request_world config endpoint options w) as (out & Hrun & _).
  exists out. split; [exact Hrun|].
  unfold bind. rewrite Hrun. destruct out as [[a|]|t|]; reflexivity.
Qed.

(** X6. [health] sends [GET <baseUrl>/health] with no header at all, so
    the API key does not leave the client; on a 2xx JSON answer it
    returns the status and the version as received and the timestamp as
    the date its text denotes. *)
Theorem health_is_unauthenticated {platform : Platform} (config : Config)
    (w : World ApiHealth) :
  exists out w',
    health config w = (out, w') /\
    sent w' = sent w ++ [mkRequest (baseUrl config +:+ "/health") GET [] None] /\
    (forall response doc,
       answered config w response -> ok response = true ->
       json response = IsJson doc ->
       out = Returned {| health_status := ah_status (asPayload doc);
                         health_version := ah_version (asPayload doc);
                         health_timestamp :=
                           new_Date_string (ah_timestamp (asPayload doc)) |}).
Proof.
  destruct (request_then_read config "/health"
              (mkRequestOptions GET None None (Some false)) "status"
              (fun response =>
                 {| health_status := ah_status response;
                    health_version := ah_version response;
                    health_timestamp := new_Date_string (ah_timestamp response) |}) w)
    as (out & Hrun & Hbind).
  eexists. eexists. split; [exact Hbind|]. split; [reflexivity|].
  intros response doc Hans Hok Hjson.
  rewrite (request_answered _ _ _ _ _ Hans), Hok, Hjson in Hrun.
  injection Hrun as <-. reflexivity.
Qed.

Lemma health_is_unauthenticated_witness :
  let w := world_of (T:=ApiHealth) ∅
             (fun _ => mkExchange 12
                (Resolves (json_response 200 "OK" no_error_data
                             (mkApiHealth "healthy" "2024.1" "2024-01-15T00:00:00Z")))) in
  exists w',
    health (platform:=sample_platform) sample_config w =
    (Returned (mkHealthStatus "healthy" "2024.1" (ValidDate 1705276800000)), w') /\
    sent w' = [mkRequest "https://api.autofiller.dev/v1/health" GET [] None].
Proof.
  intros w.
  destruct (health_is_unauthenticated (platform:=sample_platform) sample_config w)
    as (out & w' & Hrun & Hsent & Hok).
  exists w'. split; [|exact Hsent].
  rewrite Hrun. f_equal.
  apply (Hok (json_response 200 "OK" no_error_data
                (mkApiHealth "healthy" "2024.1" "2024-01-15T00:00:00Z"))
           (mkDocument no_error_data
              (mkApiHealth "healthy" "2024.1" "2024-01-15T00:00:00Z"))).
  - split; [apply Z.leb_le; reflexivity | reflexivity].
  - reflexivity.
  - reflexivity.
Defined.

Lemma wire_pack_transformDomainPack (pack : ApiDomainPack) :
  wire_pack (transformDomainPack pack) = pack.
Proof. destruct pack. reflexivity. Qed.

Lemma transformDomainPack_wire_pack (pack : DomainPack) :
  transformDomainPack (wire_pack pack) = pack.
Proof. destruct pack. reflexivity. Qed.

(** X7. On a 2xx JSON answer [listDomainPacks] returns one pack for each
    item received, in the order received, and every wire pack is
    recovered from its pack; the one request is an authenticated
    [GET <baseUrl>/domain-packs]. *)
Theorem listDomainPacks_keeps_items (config : Config)
    (w : World ApiDomainPackList) (response : Response ApiDomainPackList)
    (doc : Document ApiDomainPackList) :
  answered config w response -> ok response = true ->
  json response = IsJson doc ->
  exists packs w',
    listDomainPacks config w = (Returned packs, w') /\
    map wire_pack packs = dl_items (asPayload doc) /\
    length packs = length (dl_items (asPayload doc)) /\
    (forall i pack, dl_items (asPayload doc) !! i = Some pack ->
       packs !! i = Some (transformDomainPack pack)) /\
    sent w' = sent w ++
      [mkRequest (baseUrl config +:+ "/domain-packs") GET
         [("Authorization", "Bearer " +:+ apiKey config)] None].
Proof.
  intros Hans Hok Hjson. eexists. eexists.
  split.
  { unfold listDomainPacks, bind.
    rewrite (request_answered _ _ _ _ _ Hans), Hok, Hjson. reflexivity. }
  split.
  { rewrite map_map. erewrite map_ext; [apply map_id|].
    intros pack. apply wire_pack_transformDomainPack. }
  split; [apply length_map|].
  split; [|reflexivity].
  intros i pack Hi. rewrite list_lookup_fmap, Hi. reflexivity.
Qed.

Lemma listDomainPacks_keeps_items_witness :
  let invoice := mkApiDomainPack "invoice-standard" "1.2.0" "Invoices"
                   [("type", JString "object")] None (Some ["pdf"; "png"]) in
  let w2 := mkApiDomainPack "tax-w2" "1.0.0" "W-2 forms" []
              (Some (mkRouting (Some ["W-2"]) None)) None in
  let w := world_of (T:=ApiDomainPackList) ∅
             (fun _ => mkExchange 12
                (Resolves (json_response 200 "OK" no_error_data
                             (mkApiDomainPackList [invoice; w2])))) in
  exists packs w',
    listDomainPacks sample_config w = (Returned packs, w') /\
    map pack_name packs = ["invoice-standard"; "tax-w2"].
Proof.
  intros invoice w2 w.
  destruct (listDomainPacks_keeps_items sample_config w
              (json_response 200 "OK" no_error_data (mkApiDomainPackList [invoice; w2]))
              (mkDocument no_error_data (mkApiDomainPackList [invoice; w2])))
    as (packs & w' & Hrun & Hback & _).
  - split; [apply Z.leb_le; reflexivity | reflexivity].
  - reflexivity.
  - reflexivity.
  - exists packs, w'. split; [exact Hrun|].
    apply (f_equal (map dp_name)) in Hback. rewrite map_map in Hback.
    exact Hback.
Defined.

(** X8. [getDomainPack] puts the pack name into the path as it is, with
    no encoding, and on a 2xx JSON answer returns a pack from which the
    wire pack is recovered. *)
Theorem getDomainPack_path (config : Config) (packName : string)
    (w : World ApiDomainPack) :
  exists out w',
    getDomainPack config packName w = (out, w') /\
    sent w' = sent w ++
      [mkRequest (baseUrl config +:+ "/domain-packs/" +:+ packName) GET
         [("Authorization", "Bearer " +:+ apiKey config)] None] /\
    (forall response doc,
       answered config w response -> ok response = true ->
       json response = IsJson doc ->
       exists pack, out = Returned pack /\ wire_pack pack = asPayload doc).
Proof.
  destruct (request_then_read config ("/domain-packs/" +:+ packName)
              (mkRequestOptions GET None None None) "name" transformDomainPack w)
    as (out & Hrun & Hbind).
  eexists. eexists. split; [exact Hbind|]. split; [reflexivity|].
  intros response doc Hans Hok Hjson.
  rewrite (request_answered _ _ _ _ _ Hans), Hok, Hjson in Hrun.
  injection Hrun as <-. eexists. split; [reflexivity|].
  apply wire_pack_transformDomainPack.
Qed.

Lemma getDomainPack_path_witness :
  let pack := mkApiDomainPack "tax-w2" "1.0.0" "W-2 forms" []
                (Some (mkRouting (Some ["W-2"]) None)) None in
  let w := world_of (T:=ApiDomainPack) ∅
             (fun _ => mkExchange 12
                (Resolves (json_response 200 "OK" no_error_data pack))) in
  exists out w',
    getDomainPack sample_config "tax-w2?draft" w = (out, w') /\
    map req_url (sent w') = ["https://api.autofiller.dev/v1/domain-packs/tax-w2?draft"] /\
    exists p, out = Returned p /\ wire_pack p = pack.
Proof.
  intros pack w.
  destruct (getDomainPack_path sample_config "tax-w2?draft" w)
    as (out & w' & Hrun & Hsent & Hok).
  exists out, w'. split; [exact Hrun|]. split; [rewrite Hsent; reflexivity|].
  apply (Hok (json_response 200 "OK" no_error_data pack)
           (mkDocument no_error_data pack)).
  - split; [apply Z.leb_le; reflexivity | reflexivity].
  - reflexivity.
  - reflexivity.
Defined.

(** X16. What [request] sends as a body: a form goes out as it is and
    leaves the caller's Content-Type alone; any other object goes out as
    JSON under [Content-Type: application/json], which replaces a
    Content-Type of the caller; without a body nothing is sent and no
    Content-Type is set. *)
Theorem request_body_and_content_type {T} (config : Config) (endpoint : string)
    (options : RequestOptions) (w : World T) :
  let req := outgoing config endpoint options w in
  sent (snd (request config endpoint options w)) = sent w ++ [req] /\
  (forall l entries,
     ro_body options = Some l -> heap w !! l = Some (FormDataObj entries) ->
     req_body req = Some (FormBody entries) /\
     get_member "Content-Type" (req_headers req) =
     get_member "Content-Type" (default [] (ro_headers options))) /\
  (forall l members,
     ro_body options = Some l -> heap w !! l = Some (RecordObj members) ->
     req_body req = Some (JsonBody members) /\
     get_member "Content-Type" (req_headers req) = Some "application/json") /\
  (ro_body options = None ->
   req_body req = None /\
   get_member "Content-Type" (req_headers req) =
   get_member "Content-Type" (default [] (ro_headers options))).
Proof.
  intros req. split.
  { destruct (request_world config endpoint options w) as (out & -> & _). reflexivity. }
  assert (Hplain : forall hs : list (string * string),
            get_member "Content-Type"
              (if default true (ro_auth options)
               then set_member "Authorization" ("Bearer " +:+ apiKey config) hs
               else hs) = get_member "Content-Type" hs).
  { intros hs. destruct (default true (ro_auth options)); [|reflexivity].
    now rewrite get_set_member_ne by discriminate. }
  unfold req, outgoing, resolve_body. cbn [req_headers req_body].
  split; [|split].
  - intros l entries -> ->. cbn. split; [reflexivity | apply Hplain].
  - intros l members -> ->. cbn. split; [reflexivity | apply get_set_member_eq].
  - intros ->. cbn. split; [reflexivity | apply Hplain].
Qed.

Lemma request_body_and_content_type_witness :
  let options :=
    mkRequestOptions POST (Some 3%nat) (Some [("Content-Type", "text/plain")]) None in
  let w := world_of (T:=ApiJobStatus)
             {[ 3%nat := RecordObj [("webhook", JString "on")] ]} two_polls in
  heap w !! 3%nat = Some (RecordObj [("webhook", JString "on")]) /\
  req_body (outgoing sample_config "/hooks" options w)
  = Some (JsonBody [("webhook", JString "on")]) /\
  get_member "Content-Type" (req_headers (outgoing sample_config "/hooks" options w))
  = Some "application/json".
Proof.
  intros options w. split; [reflexivity|].
  exact (proj1 (proj2 (proj2 (request_body_and_content_type sample_config
                                "/hooks" options w)))
           3%nat _ eq_refl eq_refl).
Defined.

(** ** Request builder: the form that is built *)

Section Runs.
Context {platform : Platform} {T : Type}.
Implicit Types (w : World T).

Lemma runs_ret {A} (a : A) w (Q : A -> World T -> Prop) : Q a w -> runs (ret a) w Q.
Proof. intros HQ. exists a, w. auto. Qed.

Lemma runs_bind {A B} (m : M T A) (k : A -> M T B) w (Q : B -> World T -> Prop) :
  runs m w (fun a w' => runs (k a) w' Q) -> runs (bind m k) w Q.
Proof.
  intros (a & w' & Hm & b & w'' & Hk & HQ). exists b, w''.
  unfold bind. rewrite Hm. auto.
Qed.

Lemma runs_alloc o w (Q : loc -> World T -> Prop) :
  (forall l, heap w !! l = None -> Q l (set_heap (<[l := o]> (heap w)) w)) ->
  runs (alloc o) w Q.
Proof.
  intros HQ. eexists. eexists. split; [reflexivity|]. apply HQ.
  apply not_elem_of_dom. apply is_fresh.
Qed.

Lemma runs_get_option {A} (f : ExtractOptions -> A) options o w (Q : A -> World T -> Prop) :
  heap w !! options = Some (OptionsObj o) -> Q (f o) w ->
  runs (get_option f options) w Q.
Proof.
  intros Hopt HQ. exists (f o), w. split; [|exact HQ].
  unfold get_option, bind, load. rewrite Hopt. reflexivity.
Qed.

Lemma runs_FormData_append formData entries field value fname w
    (Q : unit -> World T -> Prop) :
  match value with BlobValue _ => False | _ => True end ->
  heap w !! formData = Some (FormDataObj entries) ->
  Q tt (set_heap (<[formData := FormDataObj (entries ++ [mkFormEntry field value fname])]>
                    (heap w)) w) ->
  runs (FormData_append formData field value fname) w Q.
Proof.
  intros Hvalue Hform HQ. eexists. eexists. split; [|exact HQ].
  unfold FormData_append, bind, load. rewrite Hform.
  destruct value; [reflexivity | reflexivity | contradiction | reflexivity | reflexivity].
Qed.

Lemma runs_set_property record members k v w (Q : unit -> World T -> Prop) :
  heap w !! record = Some (RecordObj members) ->
  Q tt (set_heap (<[record := RecordObj (set_member k v members)]> (heap w)) w) ->
  runs (set_property record k v) w Q.
Proof.
  intros Hrec HQ. eexists. eexists. split; [|exact HQ].
  unfold set_property, bind, load. rewrite Hrec. reflexivity.
Qed.

Lemma runs_get_members record members w (Q : list (string * Json) -> World T -> Prop) :
  heap w !! record = Some (RecordObj members) -> Q members w ->
  runs (get_members record) w Q.
Proof.
  intros Hrec HQ. eexists. eexists. split; [|exact HQ].
  unfold get_members, bind, load. rewrite Hrec. reflexivity.
Qed.

Lemma buildFormData_runs w options o :
  heap w !! options = Some (OptionsObj o) -> accepted o = true ->
  runs (buildFormData options) w (built w options o).
Proof.
  intros Hopt Hacc. unfold buildFormData.
  apply runs_bind, runs_alloc. intros formData Hfresh.
  assert (Hne : formData <> options) by congruence.
  apply runs_bind. eapply runs_get_option; [cbn; by rewrite lookup_insert_ne|].
  apply runs_bind.
  assert (Hfile : runs
    match file o with
    | FilePath p =>
        fname <- get_option filename options;;
        stream <- fs_createReadStream (path_resolve p);;
        FormData_append formData "file" stream
          (Some (default (path_basename (path_resolve p)) fname))
    | FileBuffer bytes =>
        fname <- get_option filename options;;
        (if negb (truthy fname)
         then raise (ThrowSdk (new_ValidationError "filename is required when file is a Buffer"))
         else FormData_append formData "file" (BufferValue bytes) fname)
    | FileBlob bytes =>
        fname <- get_option filename options;;
        FormData_append formData "file" (BlobValue bytes) (Some (default "document" fname))
    end
    (set_heap (<[formData := FormDataObj []]> (heap w)) w)
    (fun _ w1 => w1 = set_heap (<[formData := FormDataObj [file_entry o]]> (heap w)) w)).
  { unfold file_entry, accepted in *.
    destruct (file o) as [p|bytes|bytes]; [| |discriminate Hacc];
      (apply runs_bind; eapply runs_get_option; [cbn; by rewrite lookup_insert_ne|]).
    - apply negb_true_iff in Hacc. unfold fs_createReadStream. rewrite Hacc.
      apply runs_bind, runs_ret.
      eapply runs_FormData_append; [exact I|cbn; by rewrite lookup_insert_eq|].
      cbn; unfold set_heap; cbn; by rewrite insert_insert_eq.
    - rewrite Hacc; cbn [negb].
      eapply runs_FormData_append; [exact I|cbn; by rewrite lookup_insert_eq|].
      cbn; unfold set_heap; cbn; by rewrite insert_insert_eq. }
  destruct Hfile as (u & w1 & Hrun & ->). exists u. eexists. split; [exact Hrun|].
  clear Hrun u.
  apply runs_bind. eapply runs_get_option; [cbn; by rewrite lookup_insert_ne|].
  apply runs_bind.
  set (front := file_entry o ::
                 (if truthy (domainPack o)
                  then [mkFormEntry "domain_pack"
                          (TextValue (default EmptyString (domainPack o))) None]
                  else [])).
  assert (Hpack : runs
    (when (truthy (domainPack o))
       (FormData_append formData "domain_pack"
          (TextValue (default EmptyString (domainPack o))) None))
    (set_heap (<[formData := FormDataObj [file_entry o]]> (heap w)) w)
    (fun _ w1 => w1 = set_heap (<[formData := FormDataObj front]> (heap w)) w)).
  { unfold front. destruct (truthy (domainPack o)); cbn [when].
    - eapply runs_FormData_append; [exact I|cbn; by rewrite lookup_insert_eq|].
      cbn; unfold set_heap; cbn; by rewrite insert_insert_eq.
    - by apply runs_ret. }
  destruct Hpack as (u & w1 & Hrun & ->). exists u. eexists. split; [exact Hrun|].
  clear Hrun u.
  apply runs_bind, runs_alloc. cbn [heap set_heap]. intros record Hfresh2.
  assert (Hrf : record <> formData).
  { intros ->. by rewrite lookup_insert_eq in Hfresh2. }
  assert (Hro : record <> options).
  { intros ->. rewrite lookup_insert_ne in Hfresh2 by done. congruence. }
  set (h1 := <[formData := FormDataObj front]> (heap w)).
  assert (Hopt1 : forall x, <[record := x]> h1 !! options = Some (OptionsObj o)).
  { intros x. unfold h1. by rewrite !lookup_insert_ne. }
  assert (Hform1 : forall x, <[record := x]> h1 !! formData = Some (FormDataObj front)).
  { intros x. unfold h1. rewrite lookup_insert_ne by done. by rewrite lookup_insert_eq. }
  unfold built, entries_of, scalar_options. fold front.
  apply runs_bind. eapply runs_get_option; [apply Hopt1|].
  apply runs_bind.
  destruct (includeConfidence o) as [c|];
    [eapply runs_set_property; [cbn; by rewrite lookup_insert_eq|]
    | apply runs_ret];
    cbn [heap set_heap]; rewrite ?insert_insert_eq;
    (apply runs_bind; eapply runs_get_option; [apply Hopt1|]);
    (apply runs_bind;
     destruct (includeBoundingBoxes o) as [b|];
     [eapply runs_set_property; [cbn; by rewrite lookup_insert_eq|]
     | apply runs_ret]);
    cbn [heap set_heap]; rewrite ?insert_insert_eq;
    (apply runs_bind; eapply runs_get_option; [apply Hopt1|]);
    (apply runs_bind;
     destruct (truthy (language o)); cbn [when];
     [eapply runs_set_property; [cbn; by rewrite lookup_insert_eq|]
     | apply runs_ret]);
    cbn [heap set_heap]; rewrite ?insert_insert_eq;
    (apply runs_bind; eapply runs_get_members; [cbn; by rewrite lookup_insert_eq|]);
    (apply runs_bind;
     match goal with
     | |- runs (when (0 <? Z.of_nat (length ?m)) _) _ _ =>
         let m' := eval vm_compute in (0 <? Z.of_nat (length m)) in
         change (0 <? Z.of_nat (length m)) with m'
     end; cbn [when];
     first [eapply runs_FormData_append; [exact I|apply Hform1|] | apply runs_ret]);
    apply runs_ret; cbn [heap set_heap];

    (eexists; split; [reflexivity|]; split; [exact Hfresh|]; split;
     [ rewrite ?lookup_insert_eq, ?lookup_insert_ne by done; rewrite ?lookup_insert_eq;
       try reflexivity
     | rewrite ?lookup_insert_ne by done; try apply Hopt1 ]).
  all: unfold h1; rewrite ?lookup_insert_ne by done; try exact Hopt.
  rewrite lookup_insert_eq. cbn. by rewrite app_nil_r.
Qed.
End Runs.

(** X9. For every options object whose file is a path (one that resolves
    to a path without a NUL character), or a buffer with a filename,
    [buildFormData] returns a new form, at a location that
    held nothing, whose entries are, in this order: the file (a stream on
    the resolved path, under the filename given or else the last segment
    of that path; or the buffer under its filename), [domain_pack] when
    it is a non-empty string, and [options] when at least one scalar
    option is set. It issues no request and lets no time pass. *)
Theorem buildFormData_builds_entries {platform : Platform} {T} (w : World T)
    (options : loc) (o : ExtractOptions) :
  heap w !! options = Some (OptionsObj o) -> accepted o = true ->
  exists formData w',
    buildFormData options w = (Returned formData, w') /\
    heap w !! formData = None /\
    heap w' !! formData = Some (FormDataObj (entries_of o)) /\
    sent w' = sent w /\ clock w' = clock w.
Proof.
  intros Hopt Hacc.
  destruct (buildFormData_runs w options o Hopt Hacc)
    as (formData & w' & Hrun & h & -> & Hfresh & Hform & _).
  exists formData. eexists. split; [exact Hrun|]. split; [exact Hfresh|].
  split; [exact Hform|]. split; reflexivity.
Qed.

Lemma buildFormData_builds_entries_witness :
  let w := world_of (T:=ApiExtractionResult) {[ 0%nat := OptionsObj path_options ]}
             (fun _ => mkExchange 10 (Rejects ThrowOther)) in
  accepted (platform:=sample_platform) path_options = true /\
  exists formData w',
    buildFormData (platform:=sample_platform) 0%nat w = (Returned formData, w') /\
    heap w' !! formData =
    Some (FormDataObj
            [mkFormEntry "file" (ReadStream "/srv/app/invoice.pdf") (Some "invoice.pdf");
             mkFormEntry "domain_pack" (TextValue "invoice-standard") None;
             mkFormEntry "options"
               (JsonText [("include_confidence", JBool true);
                          ("include_bounding_boxes", JBool false);
                          ("language", JString "en")]) None]).
Proof.
  intros w. split; [reflexivity|].
  destruct (buildFormData_builds_entries (platform:=sample_platform) w 0%nat
              path_options eq_refl eq_refl)
    as (formData & w' & Hrun & _ & Hform & _).
  exists formData, w'. split; [exact Hrun | exact Hform].
Defined.

Lemma fields_entries_of {platform : Platform} (o : ExtractOptions) :
  fields (entries_of o) =
  "file" :: (if truthy (domainPack o) then ["domain_pack"] else []) ++
  match scalar_options o with [] => [] | _ => ["options"] end.
Proof.
  unfold entries_of, fields, file_entry. rewrite map_cons, map_app.
  f_equal; [destruct (file o); reflexivity|].
  f_equal; [destruct (truthy (domainPack o)); reflexivity|].
  destruct (scalar_options o); reflexivity.
Qed.

Lemma scalar_options_nil (o : ExtractOptions) :
  scalar_options o = [] <->
  includeConfidence o = None /\ includeBoundingBoxes o = None /\
  truthy (language o) = false.
Proof.
  unfold scalar_options.
  destruct (includeConfidence o), (includeBoundingBoxes o), (truthy (language o));
    cbn; split; try discriminate; try tauto; intros (? & ? & ?); discriminate.
Qed.

(** X10. In the form [buildFormData] returns for a path (one that
    resolves to a path without a NUL character), or for a buffer with a
    filename, every field occurs once:
    [file] comes first, [domain_pack] is there exactly when the domain
    pack is a non-empty string, and [options] is left out exactly when
    neither flag is set and the language is absent or empty. *)
Theorem form_fields {platform : Platform} {T} (w : World T) (options : loc)
    (o : ExtractOptions) :
  heap w !! options = Some (OptionsObj o) -> accepted o = true ->
  exists formData entries,
    fst (buildFormData options w) = Returned formData /\
    heap (snd (buildFormData options w)) !! formData = Some (FormDataObj entries) /\
    NoDup (fields entries) /\
    head (fields entries) = Some "file" /\
    ("domain_pack" ∈ fields entries <-> truthy (domainPack o) = true) /\
    ("options" ∉ fields entries <->
       includeConfidence o = None /\ includeBoundingBoxes o = None /\
       truthy (language o) = false).
Proof.
  intros Hopt Hacc.
  destruct (buildFormData_runs w options o Hopt Hacc)
    as (formData & w' & Hrun & h & -> & _ & Hform & _).
  exists formData, (entries_of o). rewrite Hrun.
  split; [reflexivity|]. split; [exact Hform|].
  rewrite fields_entries_of, <- scalar_options_nil.
  destruct (truthy (domainPack o)), (scalar_options o) as [|m ms]; cbn.
  all: split; [apply (bool_decide_unpack _); by vm_compute|].
  all: split; [reflexivity|].
  all: split; split;
    first [ discriminate | reflexivity
          | intros _; apply (bool_decide_unpack _); by vm_compute
          | intros Hin; apply (bool_decide_pack _) in Hin; by vm_compute in Hin
          | intros Hin; exfalso; apply Hin; apply (bool_decide_unpack _); by vm_compute ].
Qed.

Lemma form_fields_witness :
  let named :=
    {| file := file buffer_options; filename := Some "scan.pdf";
       domainPack := Some EmptyString; includeConfidence := None;
       includeBoundingBoxes := None; language := Some EmptyString;
       webhookUrl := None |} in
  let w1 := world_of (T:=ApiExtractionResult) {[ 0%nat := OptionsObj named ]}
              (fun _ => mkExchange 10 (Rejects ThrowOther)) in
  accepted (platform:=sample_platform) named = true /\
  exists formData,
    fst (buildFormData (platform:=sample_platform) 0%nat w1) = Returned formData /\
    heap (snd (buildFormData (platform:=sample_platform) 0%nat w1)) !! formData =
    Some (FormDataObj [mkFormEntry "file" (BufferValue [Byte.x25; Byte.x50; Byte.x44; Byte.x46])
                         (Some "scan.pdf")]).
Proof.
  intros named w1. split; [reflexivity|].
  destruct (form_fields (platform:=sample_platform) w1 0%nat named eq_refl eq_refl)
    as (formData & entries & Hrun & _).
  exists formData. split; [exact Hrun|].
  assert (Hloc : formData = 1%nat).
  { assert (Hfst : fst (buildFormData (platform:=sample_platform) 0%nat w1) = Returned 1%nat)
      by reflexivity.
    rewrite Hfst in Hrun. now injection Hrun. }
  subst formData. reflexivity.
Defined.

(** ** Extraction calls, end to end *)

Section Calls.
Context {platform : Platform}.

Lemma getHeaders_of_form {T} (w : World T) formData entries :
  heap w !! formData = Some (FormDataObj entries) ->
  FormData_getHeaders formData w =
  (Returned [("content-type", "multipart/form-data; boundary=" +:+ multipart_boundary)], w).
Proof.
  intros Hform. unfold FormData_getHeaders, bind, load. rewrite Hform. reflexivity.
Qed.

Lemma outgoing_form {T} config endpoint (w : World T) formData entries :
  heap w !! formData = Some (FormDataObj entries) ->
  outgoing config endpoint
    (mkRequestOptions POST (Some formData)
       (Some [("content-type", "multipart/form-data; boundary=" +:+ multipart_boundary)])
       None) w
  = mkRequest (baseUrl config +:+ endpoint) POST (multipart_headers config)
      (Some (FormBody entries)).
Proof.
  intros Hform. unfold outgoing, resolve_body. cbn. rewrite Hform. reflexivity.
Qed.

End Calls.

(** X11. For every options object whose file is a path (one that
    resolves to a path without a NUL character), or a buffer with a
    filename, and under a timeout the timer takes as given, [extract]
    issues exactly one request, whatever the answer: [POST
    <baseUrl>/extract] with the multipart content type, the bearer key and
    the form built from the options. On a 2xx answer whose body is a JSON
    document other than [null] it returns the normalized payload; on a
    non-2xx answer whose body is not the JSON value [null] it throws the
    classified error. The options object is as before. *)
Theorem extract_end_to_end {platform : Platform} (config : Config)
    (w : World ApiExtractionResult) (options : loc) (o : ExtractOptions) :
  heap w !! options = Some (OptionsObj o) -> accepted o = true ->
  timer_range (timeout config) ->
  exists out w',
    extract config options w = (out, w') /\
    sent w' = sent w ++
      [mkRequest (baseUrl config +:+ "/extract") POST (multipart_headers config)
         (Some (FormBody (entries_of o)))] /\
    heap w' !! options = Some (OptionsObj o) /\
    (forall response doc,
       answered config w response -> ok response = true ->
       json response = IsJson doc ->
       out = Returned (transformExtractionResult
                         (clock w + latency (next_exchange w)) (asPayload doc))) /\
    (forall response,
       answered config w response -> ok response = false ->
       json response <> IsNull ->
       out = Raised (ThrowSdk (classified response))).
Proof.
  intros Hopt Hacc _.
  destruct (buildFormData_runs w options o Hopt Hacc)
    as (formData & w1 & Hbuild & h & -> & _ & Hform & Hopt').
  unfold extract, bind at 1. rewrite Hbuild.
  unfold bind at 1. rewrite (getHeaders_of_form (set_heap h w) _ _ Hform).
  set (opts := mkRequestOptions POST (Some formData) _ None).
  destruct (request_world config "/extract" opts (set_heap h w)) as (out & Hrun & _).
  unfold bind at 1. rewrite Hrun.
  exists (then_read "id"
            (transformExtractionResult (clock w + fetch_time config w)) out).
  eexists. split; [destruct out as [[payload|]|t|]; reflexivity|].
  split.
  { cbn [requested sent advance record_request set_heap].
    unfold opts. rewrite (outgoing_form config "/extract" (set_heap h w) _ _ Hform).
    reflexivity. }
  split; [exact Hopt'|].
  split.
  - intros response doc Hans Hok Hjson.
    rewrite (request_answered config "/extract" opts (set_heap h w) response Hans),
      Hok, Hjson in Hrun.
    injection Hrun as <-. destruct Hans as [Hin _].
    unfold fetch_time. destruct (Z.ltb_spec (timeout config) (latency (next_exchange w)));
      [lia | reflexivity].
  - intros response Hans Hok Hnull.
    rewrite (request_answered_error config "/extract" opts (set_heap h w) response
               Hans Hok Hnull) in Hrun.
    injection Hrun as <-. reflexivity.
Qed.

Lemma extract_end_to_end_witness :
  let w := world_of {[ 0%nat := OptionsObj path_options ]}
             (fun _ => mkExchange 10
                         (Resolves (json_response 200 "OK" no_error_data sample_result))) in
  accepted (platform:=sample_platform) path_options = true /\
  timer_range (timeout sample_config) /\
  exists r w',
    extract (platform:=sample_platform) sample_config 0%nat w = (Returned r, w') /\
    res_id r = "ext_1" /\ length (sent w') = 1%nat.
Proof.
  intros w. split; [reflexivity|].
  assert (Hrange : timer_range (timeout sample_config))
    by (split; apply Z.leb_le; reflexivity).
  split; [exact Hrange|].
  destruct (extract_end_to_end (platform:=sample_platform) sample_config w 0%nat
              path_options eq_refl eq_refl Hrange)
    as (out & w' & Hrun & Hsent & _ & Hok & _).
  eexists. exists w'. split.
  - rewrite Hrun. f_equal.
    apply (Hok (json_response 200 "OK" no_error_data sample_result)
             (mkDocument no_error_data sample_result)).
    + split; [apply Z.leb_le; reflexivity | reflexivity].
    + reflexivity.
    + reflexivity.
  - split; [reflexivity|]. rewrite Hsent. reflexivity.
Defined.

(** X12. For every options object whose file is a path (one that
    resolves to a path without a NUL character), or a buffer with a
    filename, and under a timeout the timer takes as given,
    [extractAsync] issues exactly one request: [POST
    <baseUrl>/extract/async] with the form of [extract] followed by
    [webhook_url] when the webhook URL is a non-empty string. On a 2xx
    answer whose body is a JSON document other than [null] the handle
    carries the job id and the estimate received, and its status is
    [pending] whatever status the server sent. *)
Theorem extractAsync_end_to_end {platform : Platform} (config : Config)
    (w : World ApiAsyncJob) (options : loc) (o : ExtractOptions) :
  heap w !! options = Some (OptionsObj o) -> accepted o = true ->
  timer_range (timeout config) ->
  exists out w',
    extractAsync config options w = (out, w') /\
    sent w' = sent w ++
      [mkRequest (baseUrl config +:+ "/extract/async") POST (multipart_headers config)
         (Some (FormBody (entries_of o ++ webhook_entries o)))] /\
    heap w' !! options = Some (OptionsObj o) /\
    (forall response doc,
       answered config w response -> ok response = true ->
       json response = IsJson doc ->
       out = Returned {| jobId := aj_job_id (asPayload doc);
                         handle_status := "pending";
                         estimatedTimeSeconds :=
                           aj_estimated_time_seconds (asPayload doc) |}).
Proof.
  intros Hopt Hacc _.
  destruct (buildFormData_runs w options o Hopt Hacc)
    as (formData & w1 & Hbuild & h & -> & Hfresh & Hform & Hopt').
  assert (Hne : formData <> options) by congruence.
  unfold extractAsync, bind at 1. rewrite Hbuild.
  unfold bind at 1, get_option at 1, bind at 1, load. cbn [heap set_heap].
  rewrite Hopt'. unfold ret at 1.
  set (h' := if truthy (webhookUrl o)
             then <[formData := FormDataObj (entries_of o ++ webhook_entries o)]> h
             else h).
  assert (Hhook :
    when (truthy (webhookUrl o))
      (FormData_append formData "webhook_url"
         (TextValue (default EmptyString (webhookUrl o))) None) (set_heap h w)
    = (Returned tt, set_heap h' w)).
  { unfold h', webhook_entries. destruct (truthy (webhookUrl o)); cbn [when].
    - unfold FormData_append, bind, load. cbn [heap set_heap]. rewrite Hform.
      reflexivity.
    - destruct w; reflexivity. }
  assert (Hform' : h' !! formData = Some (FormDataObj (entries_of o ++ webhook_entries o))).
  { unfold h', webhook_entries. destruct (truthy (webhookUrl o)).
    - apply lookup_insert_eq.
    - now rewrite app_nil_r. }
  assert (Hopt'' : h' !! options = Some (OptionsObj o)).
  { unfold h'. destruct (truthy (webhookUrl o)); [|exact Hopt'].
    now rewrite lookup_insert_ne. }
  unfold bind at 1. rewrite Hhook.
  unfold bind at 1. rewrite (getHeaders_of_form (set_heap h' w) _ _ Hform').
  set (opts := mkRequestOptions POST (Some formData) _ None).
  destruct (request_then_read config "/extract/async" opts "job_id"
              (fun response =>
                 {| jobId := aj_job_id response; handle_status := "pending";
                    estimatedTimeSeconds := aj_estimated_time_seconds response |})
              (set_heap h' w)) as (out & Hrun & Hbind).
  eexists. eexists. split; [exact Hbind|].
  split.
  { cbn [requested sent advance record_request set_heap].
    unfold opts. rewrite (outgoing_form config "/extract/async" (set_heap h' w) _ _ Hform').
    reflexivity. }
  split; [exact Hopt''|].
  intros response doc Hans Hok Hjson.
  rewrite (request_answered config "/extract/async" opts (set_heap h' w) response Hans),
    Hok, Hjson in Hrun.
  injection Hrun as <-. reflexivity.
Qed.

Lemma extractAsync_end_to_end_witness :
  let hooked :=
    {| file := FileBuffer [Byte.x25; Byte.x50]; filename := Some "scan.pdf";
       domainPack := None; includeConfidence := None;
       includeBoundingBoxes := None; language := None;
       webhookUrl := Some "https://example.test/hook" |} in
  let w := world_of {[ 0%nat := OptionsObj hooked ]}
             (fun _ => mkExchange 10
                (Resolves (json_response 202 "Accepted" no_error_data
                             (mkApiAsyncJob "job_9" "processing" None)))) in
  accepted (platform:=sample_platform) hooked = true /\
  timer_range (timeout sample_config) /\
  exists w',
    extractAsync (platform:=sample_platform) sample_config 0%nat w =
    (Returned (mkJobHandle "job_9" "pending" None), w') /\
    map req_body (sent w') =
    [Some (FormBody
             [mkFormEntry "file" (BufferValue [Byte.x25; Byte.x50]) (Some "scan.pdf");
              mkFormEntry "webhook_url" (TextValue "https://example.test/hook") None])].
Proof.
  intros hooked w. split; [reflexivity|].
  assert (Hrange : timer_range (timeout sample_config))
    by (split; apply Z.leb_le; reflexivity).
  split; [exact Hrange|].
  destruct (extractAsync_end_to_end (platform:=sample_platform) sample_config w 0%nat
              hooked eq_refl eq_refl Hrange)
    as (out & w' & Hrun & Hsent & _ & Hok).
  exists w'. split.
  - rewrite Hrun. f_equal.
    apply (Hok (json_response 202 "Accepted" no_error_data
                  (mkApiAsyncJob "job_9" "processing" None))
             (mkDocument no_error_data (mkApiAsyncJob "job_9" "processing" None))).
    + split; [apply Z.leb_le; reflexivity | reflexivity].
    + reflexivity.
    + reflexivity.
  - rewrite Hsent. reflexivity.
Defined.

Section Keeping.
Context {platform : Platform} {T : Type}.
Variable D : gset loc.

Lemma keeps_of_preserves {A} (m : M T A) (Q : A -> Prop) :
  preserves D m Q -> keeps D m Q.
Proof. intros Hm w HD. destruct (Hm w HD) as (? & _ & _ & ?). split; assumption. Qed.

Lemma keeps_bind {A B} (m : M T A) (k : A -> M T B) (Q : A -> Prop) (R : B -> Prop) :
  keeps D m Q -> (forall a, Q a -> keeps D (k a) R) -> keeps D (bind m k) R.
Proof.
  intros Hm Hk w HD. destruct (Hm w HD) as (Hheap & HQ).
  unfold bind. destruct (m w) as [[a|t|] w1] eqn:Hrun; cbn in *.
  - assert (HD1 : D ⊆ dom (heap w1)).
    { intros l Hl. apply elem_of_dom. rewrite (Hheap l Hl).
      apply elem_of_dom. auto. }
    destruct (Hk a (HQ a eq_refl) w1 HD1) as (Hheap' & HR).
    split; [|exact HR]. intros l Hl. rewrite (Hheap' l Hl). auto.
  - split; [exact Hheap | discriminate].
  - split; [exact Hheap | discriminate].
Qed.

Lemma keeps_ret {A} (a : A) : keeps (T:=T) D (ret a) (fun _ => True).
Proof. intros w _. split; auto. Qed.

Lemma keeps_request config endpoint options :
  keeps (T:=T) D (request config endpoint options) (fun _ => True).
Proof.
  intros w _. destruct (request_world config endpoint options w) as (out & -> & _).
  split; auto.
Qed.

Lemma keeps_extract_tail {A} config endpoint formData (k : option T -> M T A) :
  (forall response, keeps D (k response) (fun _ => True)) ->
  keeps D
    (headers <- FormData_getHeaders formData;;
     response <- request config endpoint
                   (mkRequestOptions POST (Some formData) (Some headers) None);;
     k response)
    (fun _ => True).
Proof.
  intros Hk.
  eapply keeps_bind with (Q := fun _ => True).
  { apply keeps_of_preserves. unfold FormData_getHeaders.
    eapply preserves_bind; [apply preserves_load|].
    intros [[?|?|?]|] _; first [now apply preserves_ret | apply preserves_raise]. }
  intros headers _. eapply keeps_bind; [apply keeps_request|].
  intros response _. apply Hk.
Qed.

End Keeping.

(** X13. Called with an options object whose file is a path or a
    buffer, [extract] and [extractAsync] leave that object as it was,
    whether they return or throw and whatever the network answers. (A
    blob is another matter: the form library writes to the blob it is
    handed before it gives up on it.) *)
Theorem extraction_calls_keep_the_heap {platform : Platform} (config : Config)
    (options : loc) (o : ExtractOptions) :
  (forall bytes, file o <> FileBlob bytes) ->
  (forall w : World ApiExtractionResult,
     heap w !! options = Some (OptionsObj o) ->
     heap (snd (extract config options w)) !! options = Some (OptionsObj o)) /\
  (forall w : World ApiAsyncJob,
     heap w !! options = Some (OptionsObj o) ->
     heap (snd (extractAsync config options w)) !! options = Some (OptionsObj o)).
Proof.
  intros _. pose (l := options). pose (x := OptionsObj o).
  split; intros w Hl; fold l in Hl |- *; fold x in Hl |- *.
  - assert (Hkeep : keeps (dom (heap w)) (extract config options) (fun _ => True)).
    { unfold extract.
      eapply keeps_bind;
        [apply keeps_of_preserves, preserves_buildFormData|].
      intros formData _. apply keeps_extract_tail.
      intros response. eapply keeps_bind with (Q := fun _ => True).
      { intros w0 _. destruct response; split; auto. }
      intros payload _. eapply keeps_bind with (Q := fun _ => True).
      - intros w0 _. split; auto.
      - intros now _. apply keeps_ret. }
    destruct (Hkeep w ltac:(reflexivity)) as [Hheap _].
    rewrite Hheap; [exact Hl|]. apply elem_of_dom. eauto.
  - assert (Hkeep : keeps (dom (heap w)) (extractAsync config options) (fun _ => True)).
    { unfold extractAsync.
      eapply keeps_bind;
        [apply keeps_of_preserves, preserves_buildFormData|].
      intros formData Hfresh.
      eapply keeps_bind;
        [apply keeps_of_preserves, preserves_get_option|].
      intros hook _.
      eapply keeps_bind with (Q := fun _ => True).
      { apply keeps_of_preserves, preserves_when.
        now apply preserves_FormData_append. }
      intros _ _. apply keeps_extract_tail.
      intros response. eapply keeps_bind with (Q := fun _ => True).
      { intros w0 _. destruct response; split; auto. }
      intros payload _. apply keeps_ret. }
    destruct (Hkeep w ltac:(reflexivity)) as [Hheap _].
    rewrite Hheap; [exact Hl|]. apply elem_of_dom. eauto.
Qed.

Lemma extraction_calls_keep_the_heap_witness :
  let w := world_of {[ 0%nat := OptionsObj path_options ]} (fun _ => mkExchange 10
             (Resolves (json_response 200 "OK" no_error_data sample_result))) in
  (forall bytes, file path_options <> FileBlob bytes) /\
  heap w !! 0%nat = Some (OptionsObj path_options) /\
  length (sent (snd (extract (platform:=sample_platform) sample_config 0%nat w))) = 1%nat /\
  heap (snd (extract (platform:=sample_platform) sample_config 0%nat w)) !! 0%nat
  = Some (OptionsObj path_options).
Proof.
  intros w.
  assert (Hfile : forall bytes, file path_options <> FileBlob bytes)
    by (intros bytes; discriminate).
  split; [exact Hfile|]. split; [reflexivity|]. split; [reflexivity|].
  exact (proj1 (extraction_calls_keep_the_heap (platform:=sample_platform)
                  sample_config 0%nat path_options Hfile) w eq_refl).
Defined.

(** X19. A blob does not get through on Node: when the file of the
    options object is a blob, [extract] and [extractAsync] throw an error
    of the platform, not an SDK error, before any request is issued and
    with no time passed; the options object is as before. *)
Theorem blob_file_throws_before_any_request {platform : Platform} (config : Config)
    (options : loc) (o : ExtractOptions) (bytes : list Byte.byte) :
  file o = FileBlob bytes ->
  (forall w : World ApiExtractionResult,
     heap w !! options = Some (OptionsObj o) ->
     exists name message w',
       extract config options w = (Raised (ThrowError name message), w') /\
       sent w' = sent w /\ clock w' = clock w /\
       heap w' !! options = Some (OptionsObj o)) /\
  (forall w : World ApiAsyncJob,
     heap w !! options = Some (OptionsObj o) ->
     exists name message w',
       extractAsync config options w = (Raised (ThrowError name message), w') /\
       sent w' = sent w /\ clock w' = clock w /\
       heap w' !! options = Some (OptionsObj o)).
Proof.
  intros Hfile.
  assert (Hbuild : forall T (w : World T),
            heap w !! options = Some (OptionsObj o) ->
            buildFormData options w =
            (Raised (ThrowError "TypeError" "source.on is not a function"),
             set_heap (<[fresh (dom (heap w)) := FormDataObj []]> (heap w)) w)).
  { intros T w Hopt.
    assert (Hne : fresh (dom (heap w)) <> options).
    { intros Heq. pose proof (is_fresh (dom (heap w))) as Hfresh.
      rewrite Heq in Hfresh. apply Hfresh, elem_of_dom. eauto. }
    unfold buildFormData, bind at 1, alloc.
    unfold bind at 1, get_option at 1, bind at 1, load. cbn [heap set_heap].
    rewrite lookup_insert_ne by exact Hne. rewrite Hopt. unfold ret at 1.
    rewrite Hfile.
    unfold bind at 1, bind at 1, get_option at 1, bind at 1, load. cbn [heap set_heap].
    rewrite lookup_insert_ne by exact Hne. rewrite Hopt. unfold ret at 1.
    unfold FormData_append, bind at 1, load. cbn [heap set_heap].
    rewrite lookup_insert_eq. reflexivity. }
  split; intros w Hopt; do 3 eexists.
  - unfold extract, bind at 1. rewrite (Hbuild _ w Hopt).
    split; [reflexivity|]. split; [reflexivity|]. split; [reflexivity|].
    cbn [heap set_heap]. rewrite lookup_insert_ne; [exact Hopt|].
    intros Heq. pose proof (is_fresh (dom (heap w))) as Hfresh.
    rewrite Heq in Hfresh. apply Hfresh, elem_of_dom. eauto.
  - unfold extractAsync, bind at 1. rewrite (Hbuild _ w Hopt).
    split; [reflexivity|]. split; [reflexivity|]. split; [reflexivity|].
    cbn [heap set_heap]. rewrite lookup_insert_ne; [exact Hopt|].
    intros Heq. pose proof (is_fresh (dom (heap w))) as Hfresh.
    rewrite Heq in Hfresh. apply Hfresh, elem_of_dom. eauto.
Qed.

Lemma blob_file_throws_before_any_request_witness :
  let blob :=
    {| file := FileBlob [Byte.x25; Byte.x50]; filename := None;
       domainPack := None; includeConfidence := None;
       includeBoundingBoxes := None; language := None;
       webhookUrl := Some "https://example.test/hook" |} in
  let w := world_of {[ 0%nat := OptionsObj blob ]}
             (fun _ => mkExchange 10
                (Resolves (json_response 202 "Accepted" no_error_data
                             (mkApiAsyncJob "job_9" "processing" None)))) in
  file blob = FileBlob [Byte.x25; Byte.x50] /\
  heap w !! 0%nat = Some (OptionsObj blob) /\
  exists name message w',
    extractAsync (platform:=sample_platform) sample_config 0%nat w
    = (Raised (ThrowError name message), w') /\ sent w' = [].
Proof.
  intros blob w. split; [reflexivity|]. split; [reflexivity|].
  destruct (proj2 (blob_file_throws_before_any_request (platform:=sample_platform)
                     sample_config 0%nat blob _ eq_refl) w eq_refl)
    as (name & message & w' & Hrun & Hsent & _).
  exists name, message, w'. split; [exact Hrun | exact Hsent].
Defined.

(** ** Job poller: termination and failing polls *)

Section Polling.
Context {platform : Platform}.
Variables (config : Config) (jobId : string) (pollInterval maxWait : Z).
Implicit Types (w : World ApiJobStatus).

Lemma getJob_world w :
  exists out,
    getJob config jobId w =
    (out, advance (fetch_time config w) (record_request (poll_request config jobId) w)) /\
    ((exists job, out = Returned job) \/ (exists e, out = Raised (ThrowSdk e)) \/
     out = Raised (null_read "job_id")).
Proof.
  unfold getJob, bind at 1.
  destruct (request_world config ("/jobs/" +:+ jobId)
              (mkRequestOptions GET None None None) w) as (out & -> & Hout).
  destruct Hout as [[[payload|] ->]|(e & -> & _)].
  - eexists. split; [reflexivity|]. left. eexists. reflexivity.
  - eexists. split; [reflexivity|]. right. right. reflexivity.
  - eexists. split; [reflexivity|]. right. left. eexists. reflexivity.
Qed.


Lemma loop_poll_raises fuel startTime w t w1 :
  clock w - startTime < maxWait ->
  getJob config jobId w = (Raised t, w1) ->
  waitForJob_loop (S fuel) config jobId pollInterval maxWait startTime w = (Raised t, w1).
Proof.
  intros Hopen Hjob. cbn [waitForJob_loop]. unfold bind at 1, Date_now.
  destruct (Z.ltb_spec (clock w - startTime) maxWait); [|lia].
  unfold bind at 1. rewrite Hjob. reflexivity.
Qed.

End Polling.



(** X15. A status request that fails ends the wait at once with that
    very error: when the first [n] polls keep the loop going and poll
    [n+1], issued before the deadline, throws, [waitForJob] throws the
    same error in the same world, with no sleep and no further request. *)
Theorem waitForJob_poll_error {platform : Platform} (config : Config)
    (jobId : string) (pollInterval maxWait : option Z)
    (w : World ApiJobStatus) (n : nat) (t : Thrown) (w1 : World ApiJobStatus) :
  let every := default 2000 pollInterval in
  let limit := default 300000 maxWait in
  let wn := at_test config jobId every n w in
  keeps_polling config jobId every limit n w ->
  clock wn - clock w < limit ->
  getJob config jobId wn = (Raised t, w1) ->
  forall fuel, (n < fuel)%nat ->
    waitForJob fuel config jobId pollInterval maxWait w = (Raised t, w1) /\
    sent w1 = sent w ++ repeat (poll_request config jobId) (S n) /\
    clock w1 = clock wn + fetch_time config wn.
Proof.
  intros every limit wn Hpolls Hopen Hjob fuel Hfuel.
  split.
  - destruct fuel as [|fuel]; [lia|].
    replace (S fuel) with (n + S (fuel - n))%nat by lia.
    unfold waitForJob, bind at 1, Date_now. fold every limit.
    rewrite (loop_iterates config jobId every limit n); [|exact Hpolls].
    fold wn. now apply loop_poll_raises.
  - destruct (getJob_world config jobId wn) as (out & Hrun & _).
    rewrite Hjob in Hrun. injection Hrun as _ ->.
    split; [|reflexivity].
    cbn [sent advance record_request]. unfold wn. rewrite sent_at_test, <- app_assoc.
    f_equal. now rewrite <- repeat_cons.
Qed.

Lemma waitForJob_poll_error_witness :
  let answers (n : nat) :=
    match n with
    | O => answer_snapshot 40 (snapshot "processing" None None)
    | _ => mkExchange 20
             (Resolves (json_response 401 "Unauthorized"
                          (mkErrorData None (Some "key revoked"))
                          (snapshot "pending" None None)))
    end in
  let w := world_of ∅ answers in
  keeps_polling sample_config "job_1" 2000 300000 1 w /\
  exists w1,
    waitForJob (platform:=sample_platform) 5 sample_config "job_1" None None w
    = (Raised (ThrowSdk (new_AuthenticationError (Some "key revoked"))), w1) /\
    length (sent w1) = 2%nat.
Proof.
  intros answers w.
  assert (Hpolls : keeps_polling sample_config "job_1" 2000 300000 1 w).
  { intros i Hi. destruct i as [|i]; [|lia].
    split; [reflexivity|]. eexists. split; reflexivity. }
  split; [exact Hpolls|].
  eexists.
  destruct (waitForJob_poll_error (platform:=sample_platform) sample_config "job_1"
              None None w 1 _ _ Hpolls eq_refl eq_refl 5%nat ltac:(lia))
    as (Hrun & Hsent & _).
  split; [exact Hrun|]. rewrite Hsent. reflexivity.
Defined.
